(** * SecureVault front end: a shallow embedding of the client-side logic

    The repository's sources are the React front end of SecureVault.  The
    pure helpers ([utils/helpers.js]), the event handlers of the pages and
    the conditional rendering of the components are embedded here as Rocq
    functions; handlers that talk to the back end take the back end as an
    oracle and return the new component state together with the log of the
    effects they performed. *)

From Stdlib Require Import ZArith NArith QArith List String Ascii Bool Lia Lqa.
Import ListNotations.

Set Implicit Arguments.
Close Scope Q_scope.

(** ** JavaScript values *)

Module JS.

(** A JavaScript string is a sequence of UTF-16 code units. *)
Definition code_unit := N.
Definition jsstring := list code_unit.

(** The code units of an ASCII literal. *)
Definition js (s : string) : jsstring :=
  map N_of_ascii (list_ascii_of_string s).

Definition jsstring_eqb (a b : jsstring) : bool :=
  if list_eq_dec N.eq_dec a b then true else false.

(** A JavaScript number that takes part in a comparison is either [NaN]
    or an exact rational (every finite double is one). *)
Inductive number :=
| NaN
| Num (q : Q).

(** [a >= k] against a numeric literal [k]; a comparison with [NaN] is
    false. *)
Definition ge (a : number) (k : Q) : bool :=
  match a with
  | NaN => false
  | Num q => Qle_bool k q
  end.

Inductive value :=
| VUndefined
| VNull
| VBool (b : bool)
| VNumber (n : number)
| VString (s : jsstring)
| VObject (tag : string)
| VFunction (name : string).

(** ToBoolean. *)
Definition truthy (v : value) : bool :=
  match v with
  | VUndefined | VNull => false
  | VBool b => b
  | VNumber NaN => false
  | VNumber (Num q) => negb (Qeq_bool q 0)
  | VString s => match s with [] => false | _ => true end
  | VObject _ | VFunction _ => true
  end.

(** [a || b] *)
Definition or_else (a b : value) : value := if truthy a then a else b.

Local Open Scope N_scope.

(** Character classes of the regular expressions in the sources (none of
    them carries the [u] or [i] flag). *)
Definition in_range (lo hi c : code_unit) : bool :=
  (N.leb lo c && N.leb c hi)%bool.

(** [\d] is [[0-9]]. *)
Definition re_digit (c : code_unit) : bool := in_range 48 57 c.
(** A decimal digit, as a proposition. *)
Definition decimal (c : code_unit) : Prop := 48 <= c <= 57.
(** [\D] is the complement of [\d]. *)
Definition re_nondigit (c : code_unit) : bool := negb (re_digit c).
(** [[A-Z]] *)
Definition re_upper (c : code_unit) : bool := in_range 65 90 c.
(** [[a-z]] *)
Definition re_lower (c : code_unit) : bool := in_range 97 122 c.

(** [re.test(s)] for a one-character-class pattern without anchors. *)
Definition test (cls : code_unit -> bool) (s : jsstring) : bool :=
  existsb cls s.

(** [s.replace(re, '')] for a one-character-class pattern with the [g]
    flag: every matching code unit is dropped. *)
Definition replace_all_empty (cls : code_unit -> bool) (s : jsstring)
  : jsstring :=
  filter (fun c => negb (cls c)) s.

(** [s.slice(start, end)] with the clamping of negative and oversized
    indices that String.prototype.slice performs. *)
Definition slice (s : jsstring) (start stop : Z) : jsstring :=
  let len := Z.of_nat (List.length s) in
  let from :=
    if (start <? 0)%Z then Z.max (len + start) 0 else Z.min start len in
  let to :=
    if (stop <? 0)%Z then Z.max (len + stop) 0 else Z.min stop len in
  firstn (Z.to_nat (Z.max (to - from) 0)) (skipn (Z.to_nat from) s)%Z.

(** WhiteSpace and LineTerminator code units, the ones [trim] strips. *)
Definition is_white_space (c : code_unit) : bool :=
  (in_range 9 13 c || N.eqb c 32 || N.eqb c 160 || N.eqb c 5760
   || in_range 8192 8202 c || N.eqb c 8232 || N.eqb c 8233
   || N.eqb c 8239 || N.eqb c 8287 || N.eqb c 12288 || N.eqb c 65279)%bool.

Fixpoint trimStart (s : jsstring) : jsstring :=
  match s with
  | [] => []
  | c :: rest => if is_white_space c then trimStart rest else s
  end.

Definition trimEnd (s : jsstring) : jsstring := rev (trimStart (rev s)).

Definition trim (s : jsstring) : jsstring := trimEnd (trimStart s).

(** [!s] for a string [s]. *)
Definition is_empty (s : jsstring) : bool :=
  match s with [] => true | _ => false end.

End JS.

Import JS.

(** ** utils/helpers.js *)

Module Helpers.

Open Scope string_scope.

Definition getStrengthColor (score : number) : string :=
  if ge score 80 then "text-green-400"
  else if ge score 60 then "text-cyan-400"
  else if ge score 40 then "text-yellow-400"
  else if ge score 20 then "text-orange-400"
  else "text-red-400".

Definition getStrengthGradient (score : number) : string :=
  if ge score 80 then "from-green-500 to-emerald-400"
  else if ge score 60 then "from-cyan-500 to-blue-400"
  else if ge score 40 then "from-yellow-500 to-amber-400"
  else if ge score 20 then "from-orange-500 to-red-400"
  else "from-red-600 to-red-400".

(** The own properties of the object literal [labels]. *)
Definition labels : list (string * value) :=
  [ ("very_weak", VString (js "Very Weak"));
    ("weak", VString (js "Weak"));
    ("moderate", VString (js "Moderate"));
    ("strong", VString (js "Strong"));
    ("very_strong", VString (js "Very Strong")) ].

(** What an object literal inherits: the properties of [Object.prototype].
    [__proto__] is an accessor that yields the prototype object itself. *)
Definition object_prototype : list (string * value) :=
  [ ("constructor", VFunction "Object");
    ("__proto__", VObject "Object.prototype");
    ("hasOwnProperty", VFunction "hasOwnProperty");
    ("isPrototypeOf", VFunction "isPrototypeOf");
    ("propertyIsEnumerable", VFunction "propertyIsEnumerable");
    ("toLocaleString", VFunction "toLocaleString");
    ("toString", VFunction "toString");
    ("valueOf", VFunction "valueOf");
    ("__defineGetter__", VFunction "__defineGetter__");
    ("__defineSetter__", VFunction "__defineSetter__");
    ("__lookupGetter__", VFunction "__lookupGetter__");
    ("__lookupSetter__", VFunction "__lookupSetter__") ].

Fixpoint own (props : list (string * value)) (key : string) : option value :=
  match props with
  | [] => None
  | (k, v) :: rest => if String.eqb k key then Some v else own rest key
  end.

(** [obj[key]] for an object literal: own properties first, then the
    prototype, [undefined] when neither has the key. *)
Definition get (props : list (string * value)) (key : string) : value :=
  match own props key with
  | Some v => v
  | None =>
      match own object_prototype key with
      | Some v => v
      | None => VUndefined
      end
  end.

(** [strength] is the property key the argument converts to. *)
Definition getStrengthLabel (strength : string) : value :=
  or_else (get labels strength) (VString (js "Unknown")).

End Helpers.

(** ** components/PasswordStrengthMeter.jsx *)

Module PasswordStrengthMeter.

Open Scope string_scope.

Definition getTextColor (score : number) : string :=
  if ge score 80 then "text-green-400"
  else if ge score 60 then "text-cyan-400"
  else if ge score 40 then "text-yellow-400"
  else if ge score 20 then "text-orange-400"
  else "text-red-400".

End PasswordStrengthMeter.

(** ** The tiers of the specification *)

Module Tier.

Inductive tier := very_weak | weak | moderate | strong | very_strong.

(** The specification's banding, in its own words: below 20 very weak,
    below 40 weak, below 60 moderate, below 80 strong, else very strong. *)
Definition Qlt_bool (a b : Q) : bool := negb (Qle_bool b a).

Definition tier_of_score (q : Q) : tier :=
  if Qlt_bool q 20 then very_weak
  else if Qlt_bool q 40 then weak
  else if Qlt_bool q 60 then moderate
  else if Qlt_bool q 80 then strong
  else very_strong.

Open Scope string_scope.

Definition color (t : tier) : string :=
  match t with
  | very_weak => "text-red-400"
  | weak => "text-orange-400"
  | moderate => "text-yellow-400"
  | strong => "text-cyan-400"
  | very_strong => "text-green-400"
  end.

Definition gradient (t : tier) : string :=
  match t with
  | very_weak => "from-red-600 to-red-400"
  | weak => "from-orange-500 to-red-400"
  | moderate => "from-yellow-500 to-amber-400"
  | strong => "from-cyan-500 to-blue-400"
  | very_strong => "from-green-500 to-emerald-400"
  end.

(** A five-way display function [f] is banded at 20/40/60/80 on [q]. *)
Definition banded (A : Type) (f : number -> A) (b1 b2 b3 b4 b5 : A) (q : Q)
  : Prop :=
  ((f (Num q) = b1 <-> q < 20) /\
   (f (Num q) = b2 <-> 20 <= q /\ q < 40) /\
   (f (Num q) = b3 <-> 40 <= q /\ q < 60) /\
   (f (Num q) = b4 <-> 60 <= q /\ q < 80) /\
   (f (Num q) = b5 <-> 80 <= q))%Q.

End Tier.

(** ** Effects of the event handlers

    A handler returns the next component state and the log of what it did:
    the requests it sent through [api], the toasts it raised, the
    navigation and the callbacks.  The back end is an oracle from a request
    to [Some data] (the promise resolves with [response.data]) or [None]
    (the promise rejects: network error or a status outside 2xx). *)

Module Effects.

Inductive json :=
| JBool (b : bool)
| JNum (z : Z)
| JStr (s : jsstring).

Definition body := list (string * json).

Inductive effect :=
| ApiPost (url : string) (data : body)
| ToastError (msg : string)
| ToastSuccess (msg : string)
| ToastInfo (msg : string)
| ConsoleError (msg : string)
| Navigate (path : string)
| Callback (name : string).

Definition oracle (A : Type) := string -> body -> option A.

(** The requests of a log, in order. *)
Fixpoint requests (log : list effect) : list (string * body) :=
  match log with
  | [] => []
  | ApiPost url data :: rest => (url, data) :: requests rest
  | _ :: rest => requests rest
  end.

End Effects.

Import Effects.

(** ** components/BreachChecker.jsx *)

Module BreachChecker.

Open Scope string_scope.

(** The fields of [response.data] that the component reads. *)
Record breach_data := {
  error : value;
  breached : value;
  count : value;
  breaches : list (jsstring * value);
  hash_info : option (jsstring * jsstring)
}.

Record state := {
  email : jsstring;
  password : jsstring;
  emailResult : option breach_data;
  passwordResult : option breach_data;
  loading_email : bool;
  loading_password : bool
}.

Definition initial : state :=
  {| email := []; password := []; emailResult := None; passwordResult := None;
     loading_email := false; loading_password := false |}.

Definition setEmail (v : jsstring) (st : state) : state :=
  {| email := v; password := password st; emailResult := emailResult st;
     passwordResult := passwordResult st; loading_email := loading_email st;
     loading_password := loading_password st |}.

Definition setPassword (v : jsstring) (st : state) : state :=
  {| email := email st; password := v; emailResult := emailResult st;
     passwordResult := passwordResult st; loading_email := loading_email st;
     loading_password := loading_password st |}.

Definition setEmailResult (r : breach_data) (st : state) : state :=
  {| email := email st; password := password st; emailResult := Some r;
     passwordResult := passwordResult st; loading_email := loading_email st;
     loading_password := loading_password st |}.

Definition setPasswordResult (r : breach_data) (st : state) : state :=
  {| email := email st; password := password st; emailResult := emailResult st;
     passwordResult := Some r; loading_email := loading_email st;
     loading_password := loading_password st |}.

Definition setLoadingEmail (b : bool) (st : state) : state :=
  {| email := email st; password := password st; emailResult := emailResult st;
     passwordResult := passwordResult st; loading_email := b;
     loading_password := loading_password st |}.

Definition setLoadingPassword (b : bool) (st : state) : state :=
  {| email := email st; password := password st; emailResult := emailResult st;
     passwordResult := passwordResult st; loading_email := loading_email st;
     loading_password := b |}.

Definition checkEmail (api : oracle breach_data) (st : state)
  : state * list effect :=
  if is_empty (trim (email st)) then
    (st, [ToastError "Please enter an email address"])
  else
    let data := [("email", JStr (email st))] in
    match api "/breach/check-email" data with
    | Some r =>
        (setLoadingEmail false (setEmailResult r (setLoadingEmail true st)),
         [ApiPost "/breach/check-email" data])
    | None =>
        (setLoadingEmail false (setLoadingEmail true st),
         [ApiPost "/breach/check-email" data;
          ToastError "Failed to check email"])
    end.

Definition checkPassword (api : oracle breach_data) (st : state)
  : state * list effect :=
  if is_empty (trim (password st)) then
    (st, [ToastError "Please enter a password"])
  else
    let data := [("password", JStr (password st))] in
    match api "/breach/check-password" data with
    | Some r =>
        (setLoadingPassword false
           (setPasswordResult r (setLoadingPassword true st)),
         [ApiPost "/breach/check-password" data])
    | None =>
        (setLoadingPassword false (setLoadingPassword true st),
         [ApiPost "/breach/check-password" data;
          ToastError "Failed to check password"])
    end.

(** What the result area of a section shows. *)
Inductive panel :=
| NoPanel
| UnavailablePanel (message : value)
| BreachedPanel (occurrences : value)
| NotBreachedPanel.

(** [{emailResult && ( emailResult.error ? yellow :
      emailResult.breached ? red : green )}] *)
Definition renderEmailResult (st : state) : panel :=
  match emailResult st with
  | None => NoPanel
  | Some r =>
      if truthy (error r) then UnavailablePanel (error r)
      else if truthy (breached r) then BreachedPanel (count r)
      else NotBreachedPanel
  end.

(** [{passwordResult && ( passwordResult.breached ? red : green )}] *)
Definition renderPasswordResult (st : state) : panel :=
  match passwordResult st with
  | None => NoPanel
  | Some r =>
      if truthy (breached r) then BreachedPanel (count r)
      else NotBreachedPanel
  end.

End BreachChecker.

(** ** components/PasswordGenerator.jsx *)

Module PasswordGenerator.

Open Scope string_scope.
Open Scope Z_scope.

Record options := {
  length : Z;
  useLowercase : bool;
  useUppercase : bool;
  useDigits : bool;
  useSymbols : bool;
  type : string;
  wordCount : Z
}.

Definition initial : options :=
  {| length := 16; useLowercase := true; useUppercase := true;
     useDigits := true; useSymbols := true; type := "password";
     wordCount := 4 |}.

(** [updateOption(key, value)], one function per key that the component
    ever passes. *)
Definition updateLength (v : Z) (o : options) : options :=
  {| length := v; useLowercase := useLowercase o;
     useUppercase := useUppercase o; useDigits := useDigits o;
     useSymbols := useSymbols o; type := type o; wordCount := wordCount o |}.

Definition updateWordCount (v : Z) (o : options) : options :=
  {| length := length o; useLowercase := useLowercase o;
     useUppercase := useUppercase o; useDigits := useDigits o;
     useSymbols := useSymbols o; type := type o; wordCount := v |}.

Definition updateType (v : string) (o : options) : options :=
  {| length := length o; useLowercase := useLowercase o;
     useUppercase := useUppercase o; useDigits := useDigits o;
     useSymbols := useSymbols o; type := v; wordCount := wordCount o |}.

Inductive class_key := KLowercase | KUppercase | KDigits | KSymbols.

Definition updateClass (k : class_key) (v : bool) (o : options) : options :=
  {| length := length o;
     useLowercase := match k with KLowercase => v | _ => useLowercase o end;
     useUppercase := match k with KUppercase => v | _ => useUppercase o end;
     useDigits := match k with KDigits => v | _ => useDigits o end;
     useSymbols := match k with KSymbols => v | _ => useSymbols o end;
     type := type o; wordCount := wordCount o |}.

(** The payload that [generatePassword] posts to [/generate]. *)
Definition payload (o : options) : body :=
  if String.eqb (type o) "passphrase" then
    [("type", JStr (js "passphrase")); ("word_count", JNum (wordCount o))]
  else
    [("type", JStr (js "password"));
     ("length", JNum (length o));
     ("use_lowercase", JBool (useLowercase o));
     ("use_uppercase", JBool (useUppercase o));
     ("use_digits", JBool (useDigits o));
     ("use_symbols", JBool (useSymbols o))].

(** The controls of the form.  A range input only ever reports a value
    between its [min] and [max]; the length slider ([min="8" max="64"]) and
    the class checkboxes are rendered in password mode, the word-count
    slider ([min="3" max="8"]) otherwise. *)
Inductive event :=
| ClickPassword
| ClickPassphrase
| SlideLength (v : Z)
| SlideWordCount (v : Z)
| Check (k : class_key) (checked : bool).

Inductive step : options -> event -> options -> Prop :=
| step_password o : step o ClickPassword (updateType "password" o)
| step_passphrase o : step o ClickPassphrase (updateType "passphrase" o)
| step_length o v :
    type o = "password" -> 8 <= v <= 64 ->
    step o (SlideLength v) (updateLength v o)
| step_words o v :
    type o <> "password" -> 3 <= v <= 8 ->
    step o (SlideWordCount v) (updateWordCount v o)
| step_check o k b :
    type o = "password" ->
    step o (Check k b) (updateClass k b o).

Inductive reachable : options -> Prop :=
| reach_initial : reachable initial
| reach_step o e o' : reachable o -> step o e o' -> reachable o'.

(** [body[key]], the field of a request body. *)
Fixpoint field (key : string) (b : body) : option json :=
  match b with
  | [] => None
  | (k, v) :: rest => if String.eqb k key then Some v else field key rest
  end.

End PasswordGenerator.

(** ** components/TwoFactorSetup.jsx *)

Module TwoFactorSetup.

Open Scope string_scope.

(** [setupData], which only the QR code and the manual key display, is
    left out. *)
Record state := {
  step : string;
  verifyCode : jsstring;
  loading : bool
}.

Definition initial : state :=
  {| step := "setup"; verifyCode := []; loading := false |}.

(** [e.target.value.replace(/\D/g, '').slice(0, 6)] *)
Definition sanitize (raw : jsstring) : jsstring :=
  slice (replace_all_empty re_nondigit raw) 0 6.

(** The [onChange] of the code input. *)
Definition onChangeCode (raw : jsstring) (st : state) : state :=
  {| step := step st; verifyCode := sanitize raw; loading := loading st |}.

Definition setLoading (b : bool) (st : state) : state :=
  {| step := step st; verifyCode := verifyCode st; loading := b |}.

Definition setStep (v : string) (st : state) : state :=
  {| step := v; verifyCode := verifyCode st; loading := loading st |}.

(** The toast of a rejected request shows the server's error text when
    there is one; the log keeps the fallback text. *)
Definition initSetup (A : Type) (api : oracle A) (st : state)
  : state * list effect :=
  match api "/auth/2fa/setup" [] with
  | Some _ =>
      (setLoading false (setStep "verify" (setLoading true st)),
       [ApiPost "/auth/2fa/setup" []])
  | None =>
      (setLoading false (setLoading true st),
       [ApiPost "/auth/2fa/setup" []; ToastError "Failed to setup 2FA"])
  end.

Definition verifyAndEnable (A : Type) (api : oracle A) (st : state)
  : state * list effect :=
  if negb (Nat.eqb (List.length (verifyCode st)) 6) then
    (st, [ToastError "Please enter a 6-digit code"])
  else
    let data := [("code", JStr (verifyCode st))] in
    match api "/auth/2fa/verify" data with
    | Some _ =>
        (setLoading false (setLoading true st),
         [ApiPost "/auth/2fa/verify" data;
          ToastSuccess "2FA has been enabled!";
          Callback "onComplete"])
    | None =>
        (setLoading false (setLoading true st),
         [ApiPost "/auth/2fa/verify" data;
          ToastError "Invalid verification code"])
    end.

(** [disabled={loading || verifyCode.length !== 6}] *)
Definition verifyDisabled (st : state) : bool :=
  loading st || negb (Nat.eqb (List.length (verifyCode st)) 6).

(** The states the component can be in: the code field only changes
    through [onChangeCode]. *)
Inductive reachable : state -> Prop :=
| reach_initial : reachable initial
| reach_setup A (api : oracle A) st :
    reachable st -> reachable (fst (initSetup api st))
| reach_change raw st :
    reachable st -> reachable (onChangeCode raw st)
| reach_verify A (api : oracle A) st :
    reachable st -> reachable (fst (verifyAndEnable api st)).

End TwoFactorSetup.

(** ** context/AuthContext.jsx *)

Module AuthContext.

Open Scope string_scope.

(** [login(email, password, totpCode = null)]: the payload carries
    [totp_code] only when [totpCode] is truthy. *)
Definition login_payload (email password : jsstring)
  (totpCode : option jsstring) : body :=
  ([("email", JStr email); ("password", JStr password)] ++
   match totpCode with
   | Some code => if is_empty code then [] else [("totp_code", JStr code)]
   | None => []
   end)%list.

Definition register_payload (email password : jsstring) : body :=
  [("email", JStr email); ("password", JStr password)].

End AuthContext.

(** ** pages/Login.jsx *)

Module Login.

Open Scope string_scope.

Record state := {
  email : jsstring;
  password : jsstring;
  totpCode : jsstring;
  loading : bool;
  requires2FA : bool
}.

(** The [onChange] of the 2FA code input. *)
Definition onChangeTotp (raw : jsstring) (st : state) : state :=
  {| email := email st; password := password st;
     totpCode := slice (replace_all_empty re_nondigit raw) 0 6;
     loading := loading st; requires2FA := requires2FA st |}.

(** The request that [handleSubmit] sends through [login]; no check of the
    code's length precedes it. *)
Definition handleSubmit_request (st : state) : string * body :=
  ("/auth/login",
   AuthContext.login_payload (email st) (password st)
     (if requires2FA st then Some (totpCode st) else None)).

End Login.

(** ** pages/Analyzer.jsx *)

Module Analyzer.

Open Scope string_scope.

Section Page.

(** The type of [response.data] of [/analyze]. *)
Variable AnalysisResult : Type.

Record state := {
  password : jsstring;
  analysis : option AnalysisResult;
  loading : bool
}.

Definition initial : state :=
  {| password := []; analysis := None; loading := false |}.

Definition setPassword (v : jsstring) (st : state) : state :=
  {| password := v; analysis := analysis st; loading := loading st |}.

Definition setAnalysis (r : AnalysisResult) (st : state) : state :=
  {| password := password st; analysis := Some r; loading := loading st |}.

Definition setLoading (b : bool) (st : state) : state :=
  {| password := password st; analysis := analysis st; loading := b |}.

Definition analyzePassword (api : oracle AnalysisResult) (st : state)
  : state * list effect :=
  if is_empty (trim (password st)) then (st, [])
  else
    let data := [("password", JStr (password st))] in
    match api "/analyze" data with
    | Some r =>
        (setLoading false (setAnalysis r (setLoading true st)),
         [ApiPost "/analyze" data])
    | None =>
        (setLoading false (setLoading true st),
         [ApiPost "/analyze" data; ConsoleError "Analysis failed:"])
    end.

(** [disabled={loading || !password.trim()}] *)
Definition analyzeDisabled (st : state) : bool :=
  loading st || is_empty (trim (password st)).

End Page.

End Analyzer.

(** ** pages/Register.jsx *)

Module Register.

Open Scope string_scope.

Section Page.

Variable AnalysisResult : Type.

Record formData := {
  email : jsstring;
  password : jsstring;
  confirmPassword : jsstring
}.

Record state := {
  form : formData;
  passwordAnalysis : option AnalysisResult;
  loading : bool
}.

Inductive field_name := FEmail | FPassword | FConfirmPassword.

Definition setField (name : field_name) (v : jsstring) (f : formData)
  : formData :=
  match name with
  | FEmail => {| email := v; password := password f;
                 confirmPassword := confirmPassword f |}
  | FPassword => {| email := email f; password := v;
                    confirmPassword := confirmPassword f |}
  | FConfirmPassword => {| email := email f; password := password f;
                           confirmPassword := v |}
  end.

(** [handleChange]: the password field is analysed while it is typed, as
    soon as [value.length > 0]. *)
Definition handleChange (api : oracle AnalysisResult)
  (name : field_name) (v : jsstring) (st : state) : state * list effect :=
  let st1 := {| form := setField name v (form st);
                passwordAnalysis := passwordAnalysis st;
                loading := loading st |} in
  match name with
  | FPassword =>
      if Nat.ltb 0 (List.length v) then
        let data := [("password", JStr v)] in
        match api "/analyze" data with
        | Some r =>
            ({| form := form st1; passwordAnalysis := Some r;
                loading := loading st1 |},
             [ApiPost "/analyze" data])
        | None => (st1, [ApiPost "/analyze" data])
        end
      else
        ({| form := form st1; passwordAnalysis := None;
            loading := loading st1 |}, [])
  | _ => (st1, [])
  end.

(** [passwordRequirements], label and [met]. *)
Definition passwordRequirements (f : formData) : list (string * bool) :=
  [ ("At least 8 characters", Nat.leb 8 (List.length (password f)));
    ("Contains uppercase letter", test re_upper (password f));
    ("Contains lowercase letter", test re_lower (password f));
    ("Contains number", test re_digit (password f)) ].

(** The four stated requirements and the confirmation, as propositions. *)
Definition requirements_met (f : formData) : Prop :=
  8 <= List.length (password f) /\
  (exists c, In c (password f) /\ (65 <= c <= 90)%N) /\
  (exists c, In c (password f) /\ (97 <= c <= 122)%N) /\
  (exists c, In c (password f) /\ (48 <= c <= 57)%N) /\
  password f = confirmPassword f.

(** [handleSubmit], with [register] of the auth context as the oracle of
    [/auth/register]. *)
Definition handleSubmit (A : Type) (api : oracle A) (st : state)
  : state * list effect :=
  if negb (jsstring_eqb (password (form st)) (confirmPassword (form st))) then
    (st, [ToastError "Passwords do not match"])
  else if negb (forallb snd (passwordRequirements (form st))) then
    (st, [ToastError "Please meet all password requirements"])
  else
    let data :=
      AuthContext.register_payload (email (form st)) (password (form st)) in
    let done := {| form := form st; passwordAnalysis := passwordAnalysis st;
                   loading := false |} in
    match api "/auth/register" data with
    | Some _ =>
        (done,
         [ApiPost "/auth/register" data;
          ToastSuccess "Account created successfully!";
          Navigate "/dashboard"])
    | None =>
        (done,
         [ApiPost "/auth/register" data; ToastError "Registration failed"])
    end.

End Page.

End Register.

(** ** SHA-1 (FIPS 180-4), the digest of the breach check *)

Module SHA1.

Local Open Scope N_scope.

Definition w32 (x : N) : N := x mod 4294967296.
Definition add32 (a b : N) : N := w32 (a + b).
Definition rotl (n x : N) : N :=
  w32 (N.lor (N.shiftl x n) (N.shiftr x (32 - n))).
Definition not32 (x : N) : N := N.lxor x 4294967295.

(** Message padding: the bit 1, zeros up to 56 modulo 64 bytes, and the
    bit length as 8 big-endian bytes. *)
Definition be_bytes (k : nat) (x : N) : list N :=
  map (fun i => N.shiftr x (8 * N.of_nat i) mod 256) (rev (seq 0 k)).

Definition pad (msg : list N) : list N :=
  let len := N.of_nat (List.length msg) in
  let zeros := N.to_nat ((119 - len mod 64) mod 64) in
  (msg ++ [128] ++ repeat 0 zeros ++ be_bytes 8 (8 * len))%list.

Fixpoint words (bs : list N) : list N :=
  match bs with
  | a :: b :: c :: d :: rest =>
      (N.shiftl a 24 + N.shiftl b 16 + N.shiftl c 8 + d) :: words rest
  | _ => []
  end.

Fixpoint blocks (fuel : nat) (ws : list N) : list (list N) :=
  match fuel with
  | O => []
  | S fuel' =>
      match ws with
      | [] => []
      | _ => firstn 16 ws :: blocks fuel' (skipn 16 ws)
      end
  end.

(** The message schedule: 16 words extended to 80. *)
Fixpoint schedule (n : nat) (w : list N) : list N :=
  match n with
  | O => w
  | S n' =>
      let t := List.length w in
      let x := N.lxor (N.lxor (nth (t - 3) w 0) (nth (t - 8) w 0))
                 (N.lxor (nth (t - 14) w 0) (nth (t - 16) w 0)) in
      schedule n' (w ++ [rotl 1 x])
  end.

Record digest := { h0 : N; h1 : N; h2 : N; h3 : N; h4 : N }.

Definition init : digest :=
  {| h0 := 1732584193; h1 := 4023233417; h2 := 2562383102;
     h3 := 271733878; h4 := 3285377520 |}.

Definition round (st : digest) (tw : nat * N) : digest :=
  let (t, w) := tw in
  let (a, b, c, d, e) := st in
  let (f, k) :=
    if Nat.ltb t 20 then
      (N.lor (N.land b c) (N.land (not32 b) d), 1518500249)
    else if Nat.ltb t 40 then
      (N.lxor (N.lxor b c) d, 1859775393)
    else if Nat.ltb t 60 then
      (N.lor (N.lor (N.land b c) (N.land b d)) (N.land c d), 2400959708)
    else
      (N.lxor (N.lxor b c) d, 3395469782) in
  {| h0 := add32 (add32 (add32 (add32 (rotl 5 a) f) e) k) w;
     h1 := a; h2 := rotl 30 b; h3 := c; h4 := d |}.

Definition compress (h : digest) (block : list N) : digest :=
  let w := schedule 64 block in
  let r := fold_left round (combine (seq 0 80) w) h in
  {| h0 := add32 (h0 h) (h0 r); h1 := add32 (h1 h) (h1 r);
     h2 := add32 (h2 h) (h2 r); h3 := add32 (h3 h) (h3 r);
     h4 := add32 (h4 h) (h4 r) |}.

Definition sha1 (msg : list N) : digest :=
  let ws := words (pad msg) in
  fold_left compress (blocks (List.length ws) ws) init.

(** The digest in upper-case hexadecimal, 8 characters per word. *)
Definition hexchars : list ascii :=
  list_ascii_of_string "0123456789ABCDEF".

Definition hex_digit (n : N) : ascii :=
  nth (N.to_nat (n mod 16)) hexchars "0"%char.

Definition hex_word (w : N) : list ascii :=
  map (fun i => hex_digit (N.shiftr w (4 * i))) [7; 6; 5; 4; 3; 2; 1; 0].

Definition hexdigest (d : digest) : list ascii :=
  (hex_word (h0 d) ++ hex_word (h1 d) ++ hex_word (h2 d)
   ++ hex_word (h3 d) ++ hex_word (h4 d))%list.

Definition sha1_hex (s : string) : list ascii :=
  hexdigest (sha1 (map N_of_ascii (list_ascii_of_string s))).

Definition is_upper_hex (c : ascii) : bool :=
  let n := N_of_ascii c in
  ((N.leb 48 n && N.leb n 57) || (N.leb 65 n && N.leb n 70))%bool.

End SHA1.

(** ** The Breach Oracle of the specification *)

Module BreachOracle.

(** The outcomes of a check: found with an occurrence count, not found, or
    the corpus could not be reached. *)
Inductive BreachResult :=
| Found (count : N)
| NotFound
| Unavailable.

(** A computation that may query the remote corpus: the query is the text
    that leaves the caller, the answer is the list of records or [None]
    when the corpus is unreachable. *)
Inductive io (A : Type) :=
| Ret (a : A)
| Query (sent : list ascii) (k : option (list (list ascii * N)) -> io A).

Arguments Ret {A} a.
Arguments Query {A} sent k.

Definition remote := list ascii -> option (list (list ascii * N)).

(** Running a computation against a corpus: the result and everything
    that was sent, in order. *)
Fixpoint run (A : Type) (r : remote) (c : io A) : A * list (list ascii) :=
  match c with
  | Ret a => (a, [])
  | Query q k => let (a, sent) := run r (k (r q)) in (a, q :: sent)
  end.

Definition ascii_list_eqb (a b : list ascii) : bool :=
  if list_eq_dec ascii_dec a b then true else false.

Definition prefix (h : list ascii) : list ascii := firstn 5 h.
Definition suffix (h : list ascii) : list ascii := skipn 5 h.

(** The local comparison of suffixes. *)
Definition lookup (sfx : list ascii) (records : list (list ascii * N))
  : BreachResult :=
  match find (fun r => ascii_list_eqb (fst r) sfx) records with
  | Some (_, n) => Found n
  | None => NotFound
  end.

(** Modelled from the spec: the back end's breach checker (the handler of
    [/breach/check-password], [backend/security/breach_checker.py]) is not
    among the sources.  Section 4.4: compute SHA-1 of the password, split it
    into a 5-character prefix and the remaining suffix, send only the
    prefix to the remote corpus, receive a list of (suffix, count) pairs
    and compare suffixes locally; remote unavailability is a result of its
    own. *)
Definition checkPassword (password : string) : io BreachResult :=
  let h := SHA1.sha1_hex password in
  Query (prefix h)
    (fun answer =>
       match answer with
       | None => Ret Unavailable
       | Some records => Ret (lookup (suffix h) records)
       end).

End BreachOracle.

(** ** The Strength Analyzer of the specification *)

Module StrengthAnalyzer.

(** The part of the specification's AnalysisResult that does not depend
    on the scoring weights, which the specification leaves open. *)
Record AnalysisResult := {
  length : nat;
  lowercase_count : nat;
  uppercase_count : nat;
  digit_count : nat;
  symbol_count : nat;
  unique_characters : nat
}.

Inductive outcome :=
| ValidationError
| Analysed (r : AnalysisResult).

Definition count (cls : code_unit -> bool) (s : jsstring) : nat :=
  List.length (filter cls s).

Definition is_symbol (c : code_unit) : bool :=
  negb (re_lower c || re_upper c || re_digit c).

(** Modelled from the spec: the back end's analyzer (the handler of
    [/analyze], [backend/security/password_analyzer.py]) is not among the
    sources.  Section 4.1: reject empty input with a validation error (step 1),
    classify the characters into lower, upper, digit and symbol (step 2);
    the analyzer never fails except on empty input.  The entropy, the
    score, the pattern list and the crack times are not part of this
    model. *)
Definition analyze (password : jsstring) : outcome :=
  match password with
  | [] => ValidationError
  | _ =>
      Analysed
        {| length := List.length password;
           lowercase_count := count re_lower password;
           uppercase_count := count re_upper password;
           digit_count := count re_digit password;
           symbol_count := count is_symbol password;
           unique_characters := List.length (nodup N.eq_dec password) |}
  end.

(** Modelled from the spec: the [/analyze] endpoint as the front end sees
    it, which is not among the sources either; a validation error is a
    rejected request. *)
Definition endpoint : oracle AnalysisResult :=
  fun url data =>
    match data with
    | [(key, JStr p)] =>
        if (String.eqb url "/analyze" && String.eqb key "password")%bool then
          match analyze p with
          | Analysed r => Some r
          | ValidationError => None
          end
        else None
    | _ => None
    end.

End StrengthAnalyzer.

(** ** Concrete inputs used in the statements below *)

Module Inputs.

(** A [response.data] of [/breach/check-password] or [/breach/check-email]
    that reports an outage of the breach service. *)
Definition outage : BreachChecker.breach_data :=
  {| BreachChecker.error := VString (js "Service unavailable");
     BreachChecker.breached := VBool false;
     BreachChecker.count := VNumber (Num 0);
     BreachChecker.breaches := [];
     BreachChecker.hash_info := None |}.

(** A back end that answers every request with [outage]. *)
Definition outage_api : oracle BreachChecker.breach_data :=
  fun _ _ => Some outage.

(** A back end that rejects every request. *)
Definition down (A : Type) : oracle A := fun _ _ => None.

End Inputs.

(** ** What the specification's GenerationSpec asks of a request *)

Module GenerationSpec.

Import PasswordGenerator.
Open Scope string_scope.
Open Scope Z_scope.

Definition passphrase_request (b : body) : Prop :=
  map fst b = ["type"; "word_count"] /\
  field "type" b = Some (JStr (js "passphrase")) /\
  exists n, field "word_count" b = Some (JNum n) /\ 3 <= n <= 10.

Definition password_request (b : body) : Prop :=
  map fst b = ["type"; "length"; "use_lowercase"; "use_uppercase";
               "use_digits"; "use_symbols"] /\
  field "type" b = Some (JStr (js "password")) /\
  (exists n, field "length" b = Some (JNum n) /\ 8 <= n <= 128) /\
  (exists l u d y,
     field "use_lowercase" b = Some (JBool l) /\
     field "use_uppercase" b = Some (JBool u) /\
     field "use_digits" b = Some (JBool d) /\
     field "use_symbols" b = Some (JBool y)).

Definition within_bounds (b : body) : Prop :=
  passphrase_request b \/ password_request b.

(** The narrower range of the sliders. *)
Definition within_sliders (o : options) : Prop :=
  8 <= length o <= 64 /\ 3 <= wordCount o <= 8.

(** The invariant of the form's state. *)
Definition generator_inv (o : options) : Prop :=
  (type o = "password" \/ type o = "passphrase") /\ within_sliders o.

End GenerationSpec.

(** ** Regular expressions

    The patterns of the sources that go beyond one character class are
    anchored at both ends and built from classes, sequence and repetition
    only, so [re.test(s)] decides membership of the whole string in a
    regular language.  It is computed here by derivatives. *)

Module Regex.

Inductive regex :=
| Empty
| Eps
| Class (p : code_unit -> bool)
| Seq (r s : regex)
| Alt (r s : regex)
| Star (r : regex).

(** [r+] and [r{2,}] *)
Definition Plus (r : regex) : regex := Seq r (Star r).
Definition AtLeast2 (r : regex) : regex := Seq r (Seq r (Star r)).

Fixpoint nullable (r : regex) : bool :=
  match r with
  | Empty => false
  | Eps => true
  | Class _ => false
  | Seq r s => nullable r && nullable s
  | Alt r s => nullable r || nullable s
  | Star _ => true
  end.

Fixpoint deriv (c : code_unit) (r : regex) : regex :=
  match r with
  | Empty => Empty
  | Eps => Empty
  | Class p => if p c then Eps else Empty
  | Seq r s =>
      if nullable r then Alt (Seq (deriv c r) s) (deriv c s)
      else Seq (deriv c r) s
  | Alt r s => Alt (deriv c r) (deriv c s)
  | Star r => Seq (deriv c r) (Star r)
  end.

(** [/^r$/.test(s)] *)
Fixpoint test_anchored (r : regex) (s : jsstring) : bool :=
  match s with
  | [] => nullable r
  | c :: rest => test_anchored (deriv c r) rest
  end.

(** The language of a pattern. *)
Inductive matches : regex -> jsstring -> Prop :=
| MEps : matches Eps []
| MClass p c : p c = true -> matches (Class p) [c]
| MSeq r s u v : matches r u -> matches s v -> matches (Seq r s) (u ++ v)
| MAltL r s u : matches r u -> matches (Alt r s) u
| MAltR r s u : matches s u -> matches (Alt r s) u
| MStar0 r : matches (Star r) []
| MStarS r u v :
    matches r u -> matches (Star r) v -> matches (Star r) (u ++ v).

End Regex.

(** ** utils/helpers.js, the string helpers *)

Module HelpersText.

Import Regex.
Local Open Scope N_scope.

(** [truncate(text, maxLength = 30)]; [text] is [None] for [null] and
    [undefined]. *)
Definition truncate (text : option jsstring) (maxLength : Z) : jsstring :=
  match text with
  | None => []
  | Some t =>
      if is_empty t then []
      else if (Z.of_nat (List.length t) <=? maxLength)%Z then t
      else (slice t 0 maxLength ++ js "...")%list
  end.

Definition truncate_default (text : option jsstring) : jsstring :=
  truncate text 30.

Definition re_letter (c : code_unit) : bool := re_lower c || re_upper c.

(** [[a-zA-Z0-9._%+-]] *)
Definition re_local (c : code_unit) : bool :=
  re_letter c || re_digit c || N.eqb c 46 || N.eqb c 95 || N.eqb c 37
  || N.eqb c 43 || N.eqb c 45.

(** [[a-zA-Z0-9.-]] *)
Definition re_domain (c : code_unit) : bool :=
  re_letter c || re_digit c || N.eqb c 46 || N.eqb c 45.

Definition is_at (c : code_unit) : bool := N.eqb c 64.
Definition is_dot (c : code_unit) : bool := N.eqb c 46.

(** [/^[a-zA-Z0-9._%+-]+@[a-zA-Z0-9.-]+\.[a-zA-Z]{2,}$/] *)
Definition pattern : regex :=
  Seq (Plus (Class re_local))
    (Seq (Class is_at)
       (Seq (Plus (Class re_domain))
          (Seq (Class is_dot) (AtLeast2 (Class re_letter))))).

Definition isValidEmail (email : jsstring) : bool :=
  test_anchored pattern email.

(** The shape of a valid address: local part, [@], domain labels, [.],
    top-level domain. *)
Definition address_shape (s : jsstring) : Prop :=
  exists l d t,
    s = (l ++ [64] ++ d ++ [46] ++ t)%list /\
    l <> [] /\ Forall (fun c => re_local c = true) l /\
    d <> [] /\ Forall (fun c => re_domain c = true) d /\
    (2 <= List.length t)%nat /\ Forall (fun c => re_letter c = true) t.

End HelpersText.

(** ** components/SecurityScore.jsx *)

Module SecurityScore.

Open Scope string_scope.

Definition getScoreColor (score : number) : string :=
  if ge score 80 then "#10b981"
  else if ge score 60 then "#06b6d4"
  else if ge score 40 then "#eab308"
  else if ge score 20 then "#f97316"
  else "#ef4444".

Definition getScoreLabel (score : number) : string :=
  if ge score 80 then "Excellent"
  else if ge score 60 then "Good"
  else if ge score 40 then "Fair"
  else if ge score 20 then "Poor"
  else "Critical".

(** The label that belongs to each colour of the ring. *)
Definition label_of_color (color : string) : string :=
  if String.eqb color "#10b981" then "Excellent"
  else if String.eqb color "#06b6d4" then "Good"
  else if String.eqb color "#eab308" then "Fair"
  else if String.eqb color "#f97316" then "Poor"
  else "Critical".

End SecurityScore.

(** ** components/VaultItem.jsx *)

Module VaultItem.

Open Scope string_scope.

(** The own properties of the object literal [colors]. *)
Definition colors : list (string * value) :=
  [ ("social", VString (js "bg-blue-500/20 text-blue-400"));
    ("work", VString (js "bg-green-500/20 text-green-400"));
    ("finance", VString (js "bg-yellow-500/20 text-yellow-400"));
    ("shopping", VString (js "bg-purple-500/20 text-purple-400"));
    ("gaming", VString (js "bg-red-500/20 text-red-400"));
    ("general", VString (js "bg-gray-500/20 text-gray-400")) ].

(** [colors[category] || colors.general]; [category] is the property key
    the argument converts to (["undefined"] for a missing category). *)
Definition getCategoryColor (category : string) : value :=
  or_else (Helpers.get colors category) (Helpers.get colors "general").

End VaultItem.

(** ** pages/Vault.jsx *)

Module Vault.

Open Scope string_scope.
Open Scope Z_scope.

Definition categories : list string :=
  ["general"; "social"; "work"; "finance"; "shopping"; "gaming"].

Record formData := {
  title : jsstring;
  username : jsstring;
  password : jsstring;
  url : jsstring;
  notes : jsstring;
  category : jsstring;
  favorite : bool
}.

Record entry := {
  id : Z;
  fields : formData
}.

Record state := {
  entries : list entry;
  showModal : bool;
  editingEntry : option entry
}.

Inductive request :=
| Delete (i : Z)
| Put (i : Z) (f : formData)
| Post (f : formData).

Inductive effect :=
| Sent (r : request)
| ToastSuccess (msg : string)
| ToastError (msg : string).

(** The back end: [Some e] when the request succeeds with
    [response.data.entry = e] (for a deletion the entry is ignored),
    [None] when it is rejected. *)
Definition server := request -> option entry.

Definition setEntries (es : list entry) (st : state) : state :=
  {| entries := es; showModal := showModal st;
     editingEntry := editingEntry st |}.



(** [handleDelete(id)]; [confirmed] is the answer to the [confirm]
    dialogue. *)
Definition handleDelete (confirmed : bool) (api : server) (i : Z) (st : state)
  : state * list effect :=
  if negb confirmed then (st, [])
  else
    match api (Delete i) with
    | Some _ =>
        (setEntries (filter (fun e => negb (id e =? i)) (entries st)) st,
         [Sent (Delete i); ToastSuccess "Entry deleted"])
    | None =>
        (st, [Sent (Delete i); ToastError "Failed to delete entry"])
    end.

Definition handleSave (api : server) (f : formData) (st : state)
  : state * list effect :=
  match editingEntry st with
  | Some ed =>
      match api (Put (id ed) f) with
      | Some e' =>
          ({| entries :=
                map (fun e => if id e =? id ed then e' else e) (entries st);
              showModal := false; editingEntry := editingEntry st |},
           [Sent (Put (id ed) f); ToastSuccess "Entry updated"])
      | None =>
          (st, [Sent (Put (id ed) f); ToastError "Failed to save entry"])
      end
  | None =>
      match api (Post f) with
      | Some e' =>
          ({| entries := e' :: entries st;
              showModal := false; editingEntry := editingEntry st |},
           [Sent (Post f); ToastSuccess "Entry created"])
      | None => (st, [Sent (Post f); ToastError "Failed to save entry"])
      end
  end.

(** [x || fallback] for a string field of an optional entry. *)
Definition or_default (x fallback : jsstring) : jsstring :=
  if is_empty x then fallback else x.

(** The initial [formData] of [EntryModal]. *)
Definition initialForm (e : option entry) : formData :=
  match e with
  | None =>
      {| title := []; username := []; password := []; url := []; notes := [];
         category := js "general"; favorite := false |}
  | Some e =>
      {| title := or_default (title (fields e)) [];
         username := or_default (username (fields e)) [];
         password := or_default (password (fields e)) [];
         url := or_default (url (fields e)) [];
         notes := or_default (notes (fields e)) [];
         category := or_default (category (fields e)) (js "general");
         favorite := favorite (fields e) |}
  end.

Definition ids (st : state) : list Z := map id (entries st).

(** What the page relies on from the back end: an update answers with the
    entry it was asked to update, a creation with an entry under a new
    id. *)
Definition answers_in_kind (api : server) (st : state) : Prop :=
  (forall i f e, api (Put i f) = Some e -> id e = i) /\
  (forall f e, api (Post f) = Some e -> ~ In (id e) (ids st)).

End Vault.

(** ** pages/Login.jsx, the submit flow *)

Module LoginFlow.

Import Login.
Open Scope string_scope.

Definition initial : state :=
  {| email := []; password := []; totpCode := []; loading := false;
     requires2FA := false |}.

(** How the back end answers [/auth/login]: with a session, or with a
    rejection whose body may carry [requires_2fa]. *)
Inductive login_result :=
| LoginOk
| LoginRejected (requires_2fa : bool).

Inductive field_name := FEmail | FPassword.

(** [handleChange], which serves the email and the password input. *)
Definition handleChange (name : field_name) (v : jsstring) (st : state)
  : state :=
  match name with
  | FEmail =>
      {| email := v; password := password st; totpCode := totpCode st;
         loading := loading st; requires2FA := requires2FA st |}
  | FPassword =>
      {| email := email st; password := v; totpCode := totpCode st;
         loading := loading st; requires2FA := requires2FA st |}
  end.

Definition handleSubmit (login : body -> login_result) (st : state)
  : state * list Effects.effect :=
  let (url, data) := handleSubmit_request st in
  match login data with
  | LoginOk =>
      ({| email := email st; password := password st;
          totpCode := totpCode st; loading := false;
          requires2FA := requires2FA st |},
       [ApiPost url data; Effects.ToastSuccess "Welcome back!";
        Navigate "/dashboard"])
  | LoginRejected true =>
      ({| email := email st; password := password st;
          totpCode := totpCode st; loading := false; requires2FA := true |},
       [ApiPost url data; ToastInfo "Please enter your 2FA code"])
  | LoginRejected false =>
      ({| email := email st; password := password st;
          totpCode := totpCode st; loading := false;
          requires2FA := requires2FA st |},
       [ApiPost url data; Effects.ToastError "Login failed"])
  end.

(** The states of the form: the code input is only rendered, and so only
    edited, once [requires2FA] is set. *)
Inductive reachable : state -> Prop :=
| reach_initial : reachable initial
| reach_change name v st : reachable st -> reachable (handleChange name v st)
| reach_totp raw st :
    reachable st -> requires2FA st = true -> reachable (onChangeTotp raw st)
| reach_submit login st :
    reachable st -> reachable (fst (handleSubmit login st)).

End LoginFlow.

(** ** context/AuthContext.jsx, the session *)

Module AuthSession.

Section Session.

(** The type of [response.data.user]. *)
Variable User : Type.

Record auth_data := {
  access_token : jsstring;
  refresh_token : jsstring;
  account : User
}.

(** The provider's state and the two [localStorage] items it owns. *)
Record session := {
  user : option User;
  loading : bool;
  stored_access : option jsstring;
  stored_refresh : option jsstring
}.

Definition signIn (d : auth_data) (s : session) : session :=
  {| user := Some (account d); loading := loading s;
     stored_access := Some (access_token d);
     stored_refresh := Some (refresh_token d) |}.

(** [login] and [register]: a rejected request throws before anything is
    stored. *)
Definition login (answer : option auth_data) (s : session) : session :=
  match answer with
  | Some d => signIn d s
  | None => s
  end.

Definition register (answer : option auth_data) (s : session) : session :=
  match answer with
  | Some d => signIn d s
  | None => s
  end.

(** [logout]: the answer of [/auth/logout] is ignored. *)
Definition logout (answer : bool) (s : session) : session :=
  {| user := None; loading := loading s;
     stored_access := None; stored_refresh := None |}.

Definition fetchUser (answer : option User) (s : session) : session :=
  match answer with
  | Some u =>
      {| user := Some u; loading := false;
         stored_access := stored_access s;
         stored_refresh := stored_refresh s |}
  | None =>
      {| user := user s; loading := false;
         stored_access := None; stored_refresh := None |}
  end.

(** The effect run on mount reads the access token.  With a truthy token
    it starts [fetchUser] and does not wait for it: the answer of
    [/auth/me] comes in later, and [fetchUser] above is what happens then.
    Without one it only clears [loading]. *)
Definition token_present (s : session) : bool :=
  match stored_access s with
  | Some (_ :: _) => true
  | _ => false
  end.

Definition mountEffect (s : session) : session :=
  if token_present s then s
  else
    {| user := user s; loading := false;
       stored_access := stored_access s;
       stored_refresh := stored_refresh s |}.

Definition updateUser (u : User) (s : session) : session :=
  {| user := Some u; loading := loading s;
     stored_access := stored_access s;
     stored_refresh := stored_refresh s |}.

Definition isAuthenticated (s : session) : bool :=
  match user s with Some _ => true | None => false end.

(** Both tokens are stored, or neither. *)
Definition tokens_paired (s : session) : Prop :=
  stored_access s = None <-> stored_refresh s = None.

(** The sessions of a page load, with whether the [/auth/me] of the mount
    effect is still unanswered.  The provider mounts with no user over
    whatever an earlier visit left in storage and renders its children at
    once, so the requests of [login], [register] and [logout] and the
    calls of [updateUser] complete in any order with the answer of
    [/auth/me]; each completion updates the session in one go. *)
Inductive reachable : session -> bool -> Prop :=
| reach_mount s0 :
    user s0 = None -> tokens_paired s0 ->
    reachable (mountEffect s0) (token_present s0)
| reach_fetched a s : reachable s true -> reachable (fetchUser a s) false
| reach_login a s p : reachable s p -> reachable (login a s) p
| reach_register a s p : reachable s p -> reachable (register a s) p
| reach_logout a s p : reachable s p -> reachable (logout a s) p
| reach_update u s p : reachable s p -> reachable (updateUser u s) p.

End Session.

End AuthSession.

(** ** A login with a short code *)

Module ShortCode.

Import Login LoginFlow.

(** The login form after the back end has asked for a second factor and
    the user has typed [12a3] into the code field. *)
Definition asked : state :=
  fst (handleSubmit (fun _ => LoginRejected true)
         (handleChange FPassword (js "pw")
            (handleChange FEmail (js "ada@mail.org") initial))).

Definition typed : state := onChangeTotp (js "12a3") asked.

End ShortCode.

(** * Theorems *)

Section Banding.

Import Helpers PasswordStrengthMeter Tier.
Open Scope string_scope.

Lemma Qle_bool_false (a b : Q) : Qle_bool a b = false <-> (b < a)%Q.
Proof.
  split; intro H.
  - apply Qnot_le_lt. intro L. apply Qle_bool_iff in L. congruence.
  - destruct (Qle_bool a b) eqn:E; [|reflexivity].
    apply Qle_bool_iff in E. lra.
Qed.

Ltac split_score q :=
  destruct (Qle_bool 80 q) eqn:E80;
  destruct (Qle_bool 60 q) eqn:E60;
  destruct (Qle_bool 40 q) eqn:E40;
  destruct (Qle_bool 20 q) eqn:E20;
  repeat match goal with
    | H : Qle_bool _ _ = true |- _ => apply Qle_bool_iff in H
    | H : Qle_bool _ _ = false |- _ => apply Qle_bool_false in H
    end.

Ltac band_cases q :=
  unfold banded, tier_of_score, Qlt_bool, ge; split_score q; cbn;
  repeat split; intros; try reflexivity; try lra; try discriminate.

Lemma getStrengthColor_banded (q : Q) :
  banded getStrengthColor
    "text-red-400" "text-orange-400" "text-yellow-400" "text-cyan-400"
    "text-green-400" q /\
  getStrengthColor (Num q) = color (tier_of_score q).
Proof. unfold getStrengthColor. band_cases q. Qed.

Lemma getStrengthGradient_banded (q : Q) :
  banded getStrengthGradient
    "from-red-600 to-red-400" "from-orange-500 to-red-400"
    "from-yellow-500 to-amber-400" "from-cyan-500 to-blue-400"
    "from-green-500 to-emerald-400" q /\
  getStrengthGradient (Num q) = gradient (tier_of_score q).
Proof. unfold getStrengthGradient. band_cases q. Qed.

Lemma getTextColor_banded (q : Q) :
  banded getTextColor
    "text-red-400" "text-orange-400" "text-yellow-400" "text-cyan-400"
    "text-green-400" q /\
  getTextColor (Num q) = color (tier_of_score q).
Proof. unfold getTextColor. band_cases q. Qed.

(** C4. For every numeric score, [getStrengthColor], [getStrengthGradient]
    and [getTextColor] each return their lowest band exactly when the score
    is below 20, the second exactly when it is in [20, 40), the third
    exactly when it is in [40, 60), the fourth exactly when it is in
    [60, 80) and the top band exactly when it is at least 80; each is the
    display of the specification's tier for that score. *)
Theorem score_banding_thresholds (q : Q) :
  (banded getStrengthColor
    "text-red-400" "text-orange-400" "text-yellow-400" "text-cyan-400"
    "text-green-400" q /\
   getStrengthColor (Num q) = color (tier_of_score q)) /\
  (banded getStrengthGradient
    "from-red-600 to-red-400" "from-orange-500 to-red-400"
    "from-yellow-500 to-amber-400" "from-cyan-500 to-blue-400"
    "from-green-500 to-emerald-400" q /\
   getStrengthGradient (Num q) = gradient (tier_of_score q)) /\
  (banded getTextColor
    "text-red-400" "text-orange-400" "text-yellow-400" "text-cyan-400"
    "text-green-400" q /\
   getTextColor (Num q) = color (tier_of_score q)).
Proof.
  split; [apply getStrengthColor_banded|].
  split; [apply getStrengthGradient_banded | apply getTextColor_banded].
Qed.

(** C8. For every score value, [NaN] included, [getTextColor] of the
    strength meter returns the same class string as [getStrengthColor] of
    the helpers module. *)
Theorem getTextColor_eq_getStrengthColor (score : number) :
  getTextColor score = getStrengthColor score.
Proof.
  unfold getTextColor, getStrengthColor.
  destruct (ge score 80), (ge score 60), (ge score 40), (ge score 20);
    reflexivity.
Qed.

End Banding.

Example sha1_password :
  string_of_list_ascii (SHA1.sha1_hex "password")
  = "5BAA61E4C9B93F3F0682250B6CF8331B7EE68FD8"%string.
Proof. vm_compute. reflexivity. Qed.

Example sha1_empty :
  string_of_list_ascii (SHA1.sha1_hex "")
  = "DA39A3EE5E6B4B0D3255BFEF95601890AFD80709"%string.
Proof. vm_compute. reflexivity. Qed.

Example sha1_two_blocks :
  string_of_list_ascii
    (SHA1.sha1_hex "abcdbcdecdefdefgefghfghighijhijkijkljklmklmnlmnomnopnopq")
  = "84983E441C3BD26EBAAE4AA1F95129E5E54670F1"%string.
Proof. vm_compute. reflexivity. Qed.

(** ** Strength labels *)

Section Labels.

Import Helpers.
Open Scope string_scope.

Lemma own_None (props : list (string * value)) (key : string) :
  ~ In key (map fst props) -> own props key = None.
Proof.
  induction props as [|[k v] rest IH]; cbn; intro H; [reflexivity|].
  destruct (String.eqb_spec k key) as [->|_].
  - exfalso. apply H. now left.
  - apply IH. intro. apply H. now right.
Qed.

Lemma own_In (props : list (string * value)) (key : string) (v : value) :
  own props key = Some v -> In (key, v) props.
Proof.
  induction props as [|[k w] rest IH]; cbn; [discriminate|].
  destruct (String.eqb_spec k key) as [->|_].
  - intro H. injection H as ->. now left.
  - intro H. right. now apply IH.
Qed.

Lemma getStrengthLabel_tiers :
  getStrengthLabel "very_weak" = VString (js "Very Weak") /\
  getStrengthLabel "weak" = VString (js "Weak") /\
  getStrengthLabel "moderate" = VString (js "Moderate") /\
  getStrengthLabel "strong" = VString (js "Strong") /\
  getStrengthLabel "very_strong" = VString (js "Very Strong").
Proof. repeat split. Qed.

(** Away from the five tiers and from the names that every object inherits,
    the label is ['Unknown']. *)
Lemma getStrengthLabel_unknown (key : string) :
  ~ In key (map fst labels) ->
  ~ In key (map fst object_prototype) ->
  getStrengthLabel key = VString (js "Unknown").
Proof.
  intros H1 H2. unfold getStrengthLabel, get.
  now rewrite (own_None _ _ H1), (own_None _ _ H2).
Qed.

(** Every inherited name that is not one of the five tiers comes back as
    the inherited member, which is never the string ['Unknown']. *)
Lemma getStrengthLabel_inherited (key : string) (v : value) :
  own object_prototype key = Some v ->
  own labels key = None ->
  getStrengthLabel key = v /\ v <> VString (js "Unknown").
Proof.
  intros Hp Hl. unfold getStrengthLabel, get. rewrite Hl, Hp.
  apply own_In in Hp. unfold object_prototype, In in Hp.
  repeat (destruct Hp as [Hp|Hp];
          [injection Hp as <- <-; split; [reflexivity|discriminate]|]).
  contradiction.
Qed.

(** C10, at the input where the code leaves it. [labels] is an object
    literal, so [labels[strength]] also finds what [Object.prototype]
    provides: for the key ["constructor"], which is none of the five
    tiers, the lookup is the truthy function [Object], the [|| 'Unknown']
    fallback does not fire, and the result is neither a label nor
    ['Unknown'] (the same for ["toString"], ["__proto__"] and the other
    inherited names). *)
Theorem getStrengthLabel_constructor :
  ~ In "constructor" (map fst labels) /\
  getStrengthLabel "constructor" = VFunction "Object" /\
  getStrengthLabel "constructor" <> VString (js "Unknown") /\
  getStrengthLabel "toString" = VFunction "toString" /\
  getStrengthLabel "__proto__" = VObject "Object.prototype".
Proof.
  split; [|repeat split; discriminate].
  cbn. intros [H|[H|[H|[H|[H|[]]]]]]; discriminate H.
Qed.

End Labels.

(** ** Breach results *)

Section BreachPanels.

Import BreachChecker Inputs.
Open Scope string_scope.

(** The email section shows the yellow panel for every result whose
    [error] is set. *)
Lemma email_error_is_unavailable (st : state) (r : breach_data) :
  emailResult st = Some r -> truthy (error r) = true ->
  renderEmailResult st = UnavailablePanel (error r).
Proof. unfold renderEmailResult. now intros -> ->. Qed.

(** The password section never looks at [error]. *)
Lemma password_panel_ignores_error (st : state) (r : breach_data) :
  passwordResult st = Some r -> truthy (breached r) = false ->
  renderPasswordResult st = NotBreachedPanel.
Proof. unfold renderPasswordResult. now intros -> ->. Qed.

(** A rejected request leaves the result that was on screen before. *)
Lemma rejected_check_keeps_panel (st : state) :
  renderPasswordResult (fst (checkPassword (@down _) st))
  = renderPasswordResult st /\
  renderEmailResult (fst (checkEmail (@down _) st)) = renderEmailResult st.
Proof.
  unfold checkPassword, checkEmail, down.
  destruct (is_empty (trim (password st))), (is_empty (trim (email st)));
    split; reflexivity.
Qed.

(** C3, at the input where the code leaves it. A password result whose
    [error] field is set and whose [breached] is false is rendered as the
    green not-found panel, while the email section renders the same result
    as the unavailable panel. *)
Theorem password_outage_rendered_not_breached :
  truthy (error outage) = true /\
  renderEmailResult (setEmailResult outage initial)
  = UnavailablePanel (VString (js "Service unavailable")) /\
  renderPasswordResult (setPasswordResult outage initial) = NotBreachedPanel /\
  renderPasswordResult
    (fst (checkPassword outage_api (setPassword (js "hunter2") initial)))
  = NotBreachedPanel.
Proof. repeat split. Qed.

End BreachPanels.

(** ** Generation requests *)

Section Generator.

Import PasswordGenerator GenerationSpec.
Open Scope string_scope.
Open Scope Z_scope.

Lemma reachable_inv (o : options) : reachable o -> generator_inv o.
Proof.
  induction 1 as [|o e o' _ IH Hstep].
  - split; [now left | cbn; unfold within_sliders; cbn; lia].
  - destruct IH as [Hty [Hlen Hwc]].
    inversion Hstep; subst; unfold generator_inv, within_sliders; cbn;
      (split; [auto | split; assumption || lia]).
Qed.

Lemma payload_passphrase (o : options) :
  type o = "passphrase" ->
  payload o =
    [("type", JStr (js "passphrase")); ("word_count", JNum (wordCount o))].
Proof. unfold payload. now intros ->. Qed.

Lemma payload_password (o : options) :
  type o = "password" ->
  payload o =
    [("type", JStr (js "password")); ("length", JNum (length o));
     ("use_lowercase", JBool (useLowercase o));
     ("use_uppercase", JBool (useUppercase o));
     ("use_digits", JBool (useDigits o));
     ("use_symbols", JBool (useSymbols o))].
Proof. unfold payload. now intros ->. Qed.

(** The four class flags are independent: every combination is reachable,
    the empty one included. *)
Lemma class_flags_independent (l u d y : bool) :
  exists o, reachable o /\ type o = "password" /\
    useLowercase o = l /\ useUppercase o = u /\
    useDigits o = d /\ useSymbols o = y.
Proof.
  exists (updateClass KSymbols y (updateClass KDigits d
           (updateClass KUppercase u (updateClass KLowercase l initial)))).
  split; [|repeat split].
  repeat (eapply reach_step; [|apply step_check; reflexivity]).
  apply reach_initial.
Qed.

(** C5. Every request that the generator form can send is within the
    bounds of GenerationSpec: a passphrase request carries [type] and
    [word_count] only, with a word count in 3..8 (so in 3..10); a password
    request carries [type], [length] in 8..64 (so in 8..128) and the four
    class flags of the form. *)
Theorem generator_payload_within_bounds (o : options) :
  reachable o ->
  within_bounds (payload o) /\ within_sliders o /\
  (type o = "passphrase" ->
   payload o =
     [("type", JStr (js "passphrase")); ("word_count", JNum (wordCount o))]) /\
  (type o <> "passphrase" ->
   payload o =
     [("type", JStr (js "password")); ("length", JNum (length o));
      ("use_lowercase", JBool (useLowercase o));
      ("use_uppercase", JBool (useUppercase o));
      ("use_digits", JBool (useDigits o));
      ("use_symbols", JBool (useSymbols o))]).
Proof.
  intro R. destruct (reachable_inv R) as [Hty [Hlen Hwc]].
  split; [|split; [split; assumption|split]].
  - destruct Hty as [Hty|Hty].
    + right. rewrite (payload_password _ Hty).
      repeat split; cbn; eauto 10. exists (length o). split; [reflexivity|lia].
    + left. rewrite (payload_passphrase _ Hty).
      repeat split. exists (wordCount o). split; [reflexivity|lia].
  - apply payload_passphrase.
  - intro Hn. apply payload_password. destruct Hty; congruence.
Qed.

Lemma generator_payload_within_bounds_witness :
  within_bounds (payload (updateLength 64 initial)) /\
  within_sliders (updateLength 64 initial).
Proof.
  assert (R : reachable (updateLength 64 initial)).
  { eapply reach_step; [apply reach_initial|].
    apply step_length; [reflexivity|lia]. }
  destruct (generator_payload_within_bounds R) as [H1 [H2 _]].
  split; assumption.
Defined.

End Generator.

(** ** Two-factor codes *)

Section Totp.

Import TwoFactorSetup.
Open Scope string_scope.

Lemma in_range_iff (lo hi c : N) :
  in_range lo hi c = true <-> (lo <= c <= hi)%N.
Proof.
  unfold in_range. rewrite andb_true_iff, !N.leb_le. tauto.
Qed.

Lemma re_digit_decimal (c : code_unit) : re_digit c = true <-> decimal c.
Proof. apply in_range_iff. Qed.

Lemma Forall_firstn (A : Type) (P : A -> Prop) (n : nat) (l : list A) :
  Forall P l -> Forall P (firstn n l).
Proof.
  intro H. revert n.
  induction H as [|x l Hx _ IH]; intros [|n]; cbn; constructor; auto.
Qed.

Lemma slice_0_6 (s : jsstring) : slice s 0 6 = firstn 6 s.
Proof.
  unfold slice. cbn [Z.ltb Z.compare].
  rewrite (Z.min_l 0) by lia. cbn [Z.to_nat skipn].
  destruct (Nat.le_gt_cases (List.length s) 6) as [Hle|Hgt].
  - rewrite Z.min_r by lia.
    replace (Z.to_nat (Z.max (Z.of_nat (List.length s) - 0) 0))
      with (List.length s) by lia.
    now rewrite firstn_all, firstn_all2.
  - rewrite Z.min_l by lia. reflexivity.
Qed.

Lemma replace_nondigit (raw : jsstring) :
  replace_all_empty re_nondigit raw = filter re_digit raw.
Proof.
  unfold replace_all_empty, re_nondigit. apply filter_ext.
  intro c. apply negb_involutive.
Qed.

Lemma sanitize_spec (raw : jsstring) :
  sanitize raw = firstn 6 (filter re_digit raw).
Proof. unfold sanitize. now rewrite slice_0_6, replace_nondigit. Qed.

Lemma sanitize_decimal (raw : jsstring) :
  Forall decimal (sanitize raw) /\ List.length (sanitize raw) <= 6.
Proof.
  rewrite sanitize_spec. split; [|apply firstn_le_length].
  apply Forall_firstn, Forall_forall. intros c Hc.
  apply filter_In in Hc. now apply re_digit_decimal.
Qed.

(** The code field of a reachable state is always a sanitized string. *)
Lemma reachable_code (st : state) :
  reachable st ->
  Forall decimal (verifyCode st) /\ List.length (verifyCode st) <= 6.
Proof.
  induction 1 as [|A api st _ IH|raw st _ _|A api st _ IH].
  - split; [constructor | cbn; lia].
  - unfold initSetup. now destruct (api _ _).
  - apply sanitize_decimal.
  - unfold verifyAndEnable.
    destruct (negb _); [assumption|]. now destruct (api _ _).
Qed.

(** The login form sanitizes its code the same way but sends it whatever
    its length: a shorter, non-empty code travels as [totp_code]. *)
Lemma login_sends_short_code :
  Login.handleSubmit_request
    (Login.onChangeTotp (js "12a3")
       {| Login.email := js "a@b.co"; Login.password := js "pw";
          Login.totpCode := []; Login.loading := false;
          Login.requires2FA := true |})
  = ("/auth/login",
     [("email", JStr (js "a@b.co")); ("password", JStr (js "pw"));
      ("totp_code", JStr (js "123"))]).
Proof. reflexivity. Qed.

(** The sanitizer and the setup component. For every raw input, the
    sanitizer of the 2FA code fields keeps
    the decimal digits of the input, in order, and at most the first six
    of them; and [verifyAndEnable] sends the verification request exactly
    when the code has length 6, with that code, which in every reachable
    state consists of decimal digits only. *)
Theorem totp_code_six_digits
  (raw : jsstring) (A : Type) (api : oracle A) (st : state) (l : Login.state) :
  (sanitize raw = firstn 6 (filter re_digit raw) /\
   Forall decimal (sanitize raw) /\
   List.length (sanitize raw) <= 6 /\
   verifyCode (onChangeCode raw st) = sanitize raw /\
   Login.totpCode (Login.onChangeTotp raw l) = sanitize raw) /\
  (List.length (verifyCode st) <> 6 ->
   verifyAndEnable api st = (st, [ToastError "Please enter a 6-digit code"])
   /\ requests (snd (verifyAndEnable api st)) = []) /\
  (List.length (verifyCode st) = 6 ->
   verifyDisabled st = loading st /\
   requests (snd (verifyAndEnable api st))
   = [("/auth/2fa/verify", [("code", JStr (verifyCode st))])]) /\
  (reachable st -> requests (snd (verifyAndEnable api st)) <> [] ->
   List.length (verifyCode st) = 6 /\ Forall decimal (verifyCode st)).
Proof.
  split; [|split; [|split]].
  - pose proof (sanitize_decimal raw) as [Hd Hl].
    repeat split; auto using sanitize_spec.
  - intro Hn. unfold verifyAndEnable.
    apply Nat.eqb_neq in Hn. rewrite Hn. now split.
  - intro He. unfold verifyAndEnable, verifyDisabled.
    rewrite He. cbn [Nat.eqb negb]. rewrite orb_false_r.
    split; [reflexivity|]. now destruct (api _ _).
  - intros R Hreq. split; [|apply (reachable_code R)].
    destruct (Nat.eq_dec (List.length (verifyCode st)) 6) as [|Hn];
      [assumption|].
    exfalso. apply Hreq. unfold verifyAndEnable.
    apply Nat.eqb_neq in Hn. now rewrite Hn.
Qed.

Lemma totp_code_six_digits_witness :
  requests
    (snd (verifyAndEnable (@Inputs.down unit)
            (onChangeCode (js "12 34-56 78") initial)))
  = [("/auth/2fa/verify", [("code", JStr (js "123456"))])] /\
  requests
    (snd (verifyAndEnable (@Inputs.down unit)
            (onChangeCode (js "12ab") initial))) = [].
Proof.
  split.
  - refine (proj2 (proj1 (proj2 (proj2
      (totp_code_six_digits [] (@Inputs.down unit)
         (onChangeCode (js "12 34-56 78") initial)
         (Login.onChangeTotp [] {| Login.email := []; Login.password := [];
            Login.totpCode := []; Login.loading := false;
            Login.requires2FA := false |})))) _)).
    reflexivity.
  - refine (proj2 (proj1 (proj2
      (totp_code_six_digits [] (@Inputs.down unit)
         (onChangeCode (js "12ab") initial)
         (Login.onChangeTotp [] {| Login.email := []; Login.password := [];
            Login.totpCode := []; Login.loading := false;
            Login.requires2FA := false |}))) _)).
    vm_compute. lia.
Defined.

End Totp.

(** ** Registration *)

Section Registration.

Import Register.
Open Scope string_scope.

Lemma jsstring_eqb_eq (a b : jsstring) : jsstring_eqb a b = true <-> a = b.
Proof.
  unfold jsstring_eqb. destruct (list_eq_dec N.eq_dec a b); split;
    congruence.
Qed.

Lemma test_exists (lo hi : N) (s : jsstring) :
  test (in_range lo hi) s = true <-> exists c, In c s /\ (lo <= c <= hi)%N.
Proof.
  unfold test. rewrite existsb_exists.
  split; intros [c [Hin Hc]]; exists c; split; trivial;
    now apply in_range_iff.
Qed.

(** The two guards of [handleSubmit] pass exactly on [requirements_met]. *)
Lemma guards_requirements (f : formData) :
  negb (jsstring_eqb (password f) (confirmPassword f)) = false /\
  negb (forallb snd (passwordRequirements f)) = false
  <-> requirements_met f.
Proof.
  unfold requirements_met, passwordRequirements. cbn [forallb snd].
  rewrite !negb_false_iff, !andb_true_iff, jsstring_eqb_eq, Nat.leb_le.
  unfold re_upper, re_lower, re_digit. rewrite !test_exists. tauto.
Qed.

(** C9. [handleSubmit] sends the registration request exactly when the
    password has at least 8 code units, an upper-case letter, a lower-case
    letter and a digit and equals the confirmation; for every other form
    state it returns with a toast, the state unchanged and nothing sent. *)
Theorem register_only_when_requirements_met
  (R A : Type) (api : oracle A) (st : state R) :
  (requirements_met (form st) ->
   requests (snd (handleSubmit api st))
   = [("/auth/register",
       [("email", JStr (email (form st)));
        ("password", JStr (password (form st)))])]) /\
  (~ requirements_met (form st) ->
   fst (handleSubmit api st) = st /\
   requests (snd (handleSubmit api st)) = []).
Proof.
  pose proof (guards_requirements (form st)) as G.
  unfold handleSubmit.
  destruct (negb (jsstring_eqb _ _)) eqn:E1.
  - split; [intro M; apply G in M; destruct M; discriminate | now split].
  - destruct (negb (forallb _ _)) eqn:E2.
    + split; [intro M; apply G in M; destruct M; discriminate | now split].
    + split; [intros _; now destruct (api _ _)|].
      intro M. exfalso. apply M, G. now split.
Qed.

Lemma register_only_when_requirements_met_witness :
  requests
    (snd (handleSubmit (@Inputs.down unit)
       {| form := {| email := js "a@b.co"; password := js "Passw0rd";
                     confirmPassword := js "Passw0rd" |};
          passwordAnalysis := @None unit; loading := false |}))
  = [("/auth/register",
      [("email", JStr (js "a@b.co")); ("password", JStr (js "Passw0rd"))])]
  /\
  requests
    (snd (handleSubmit (@Inputs.down unit)
       {| form := {| email := js "a@b.co"; password := js "password1";
                     confirmPassword := js "password1" |};
          passwordAnalysis := @None unit; loading := false |})) = [].
Proof.
  split.
  - apply (proj1 (register_only_when_requirements_met (@Inputs.down unit)
      {| form := {| email := js "a@b.co"; password := js "Passw0rd";
                    confirmPassword := js "Passw0rd" |};
         passwordAnalysis := @None unit; loading := false |})).
    apply guards_requirements. vm_compute. split; reflexivity.
  - apply (proj2 (register_only_when_requirements_met (@Inputs.down unit)
      {| form := {| email := js "a@b.co"; password := js "password1";
                    confirmPassword := js "password1" |};
         passwordAnalysis := @None unit; loading := false |})).
    intro M. apply guards_requirements in M. vm_compute in M.
    destruct M as [_ M]. discriminate M.
Defined.

End Registration.

(** ** The breach query *)

Section BreachQuery.

Import SHA1 BreachOracle.
Open Scope string_scope.

Lemma hex_digit_upper (n : N) : is_upper_hex (hex_digit n) = true.
Proof.
  assert (H : forallb is_upper_hex hexchars = true) by reflexivity.
  rewrite forallb_forall in H. apply H. unfold hex_digit.
  apply nth_In. change (List.length hexchars) with 16.
  pose proof (N.mod_upper_bound n 16). lia.
Qed.

Lemma hex_word_length (w : N) : List.length (hex_word w) = 8.
Proof. reflexivity. Qed.

Lemma hex_word_upper (w : N) : forallb is_upper_hex (hex_word w) = true.
Proof.
  unfold hex_word. apply forallb_forall. intros c Hc.
  apply in_map_iff in Hc. destruct Hc as [i [<- _]]. apply hex_digit_upper.
Qed.

Lemma hexdigest_length (d : digest) : List.length (hexdigest d) = 40.
Proof.
  unfold hexdigest. now rewrite !length_app, !hex_word_length.
Qed.

Lemma hexdigest_upper (d : digest) : forallb is_upper_hex (hexdigest d) = true.
Proof.
  unfold hexdigest.
  generalize (hex_word_upper (h0 d)) (hex_word_upper (h1 d))
    (hex_word_upper (h2 d)) (hex_word_upper (h3 d)) (hex_word_upper (h4 d)).
  generalize (hex_word (h0 d)) (hex_word (h1 d)) (hex_word (h2 d))
    (hex_word (h3 d)) (hex_word (h4 d)).
  intros l0 l1 l2 l3 l4 H0 H1 H2 H3 H4.
  rewrite !forallb_app, H0, H1, H2, H3, H4. reflexivity.
Qed.

Lemma prefix_shape (password : string) :
  List.length (prefix (sha1_hex password)) = 5 /\
  forallb is_upper_hex (prefix (sha1_hex password)) = true /\
  List.length (suffix (sha1_hex password)) = 35.
Proof.
  unfold prefix, suffix, sha1_hex.
  set (d := sha1 _). pose proof (hexdigest_length d) as L.
  pose proof (hexdigest_upper d) as U.
  rewrite length_firstn, length_skipn, L.
  split; [reflexivity|split; [|reflexivity]].
  rewrite <- (firstn_skipn 5 (hexdigest d)), forallb_app in U.
  apply andb_true_iff in U. exact (proj1 U).
Qed.

(** What the browser itself sends: the breach page posts the password to
    the application's own endpoint, where the oracle runs. *)
Lemma page_posts_password (api : oracle BreachChecker.breach_data) :
  requests
    (snd (BreachChecker.checkPassword api
            (BreachChecker.setPassword (js "password") BreachChecker.initial)))
  = [("/breach/check-password", [("password", JStr (js "password"))])].
Proof. unfold BreachChecker.checkPassword. cbn. now destruct (api _ _). Qed.

(** The oracle of the specification, which the back end is to implement:
    for every password and every behaviour of the remote corpus, the
    password check sends exactly one query, the first 5 characters of the
    upper-case hexadecimal SHA-1 of the password: 5 characters, each in
    0-9 or A-F.  The result is decided by looking the remaining 35
    characters up in the answer, locally, an unreachable corpus being a
    result of its own; and two passwords whose digests share the prefix
    are indistinguishable to the corpus. *)
Theorem breach_query_is_hash_prefix (password : string) (r : remote) :
  snd (run r (checkPassword password)) = [firstn 5 (sha1_hex password)] /\
  List.length (firstn 5 (sha1_hex password)) = 5 /\
  forallb is_upper_hex (firstn 5 (sha1_hex password)) = true /\
  fst (run r (checkPassword password))
  = match r (firstn 5 (sha1_hex password)) with
    | None => Unavailable
    | Some records => lookup (skipn 5 (sha1_hex password)) records
    end /\
  (forall other : string,
     firstn 5 (sha1_hex other) = firstn 5 (sha1_hex password) ->
     snd (run r (checkPassword other)) = snd (run r (checkPassword password))).
Proof.
  pose proof (prefix_shape password) as [L [U _]].
  assert (S : forall p,
            snd (run r (checkPassword p)) = [firstn 5 (sha1_hex p)]).
  { intro p. unfold checkPassword, prefix. cbn [run].
    destruct (r (firstn 5 (sha1_hex p))); reflexivity. }
  split; [apply S|]. split; [exact L|]. split; [exact U|]. split.
  - unfold checkPassword, prefix, suffix. cbn [run].
    destruct (r (firstn 5 (sha1_hex password))); reflexivity.
  - intros other E. rewrite !S, E. reflexivity.
Qed.

Lemma breach_query_is_hash_prefix_witness :
  string_of_list_ascii
    (List.concat (snd (run (fun _ => None) (checkPassword "pw2501"))))
  = "DC0A5" /\
  snd (run (fun _ => None) (checkPassword "pw2001"))
  = snd (run (fun _ => None) (checkPassword "pw2501")).
Proof.
  destruct (breach_query_is_hash_prefix "pw2501" (fun _ => None))
    as [Hs [_ [_ [_ Hni]]]].
  split.
  - rewrite Hs. vm_compute. reflexivity.
  - apply Hni. vm_compute. reflexivity.
Defined.

Example breach_query_password :
  run (fun _ =>
         Some [(list_ascii_of_string "1E4C9B93F3F0682250B6CF8331B7EE68FD8",
                99%N)])
    (checkPassword "password")
  = (Found 99, [list_ascii_of_string "5BAA6"]).
Proof. vm_compute. reflexivity. Qed.

End BreachQuery.

(** ** Analysis requests *)

Section Analysis.

Import StrengthAnalyzer.
Open Scope string_scope.

Lemma trimStart_head (s : jsstring) :
  trimStart s = [] \/
  exists c rest, trimStart s = c :: rest /\ is_white_space c = false.
Proof.
  induction s as [|c s IH]; cbn; [now left|].
  destruct (is_white_space c) eqn:E; [assumption|]. right. eauto.
Qed.

Lemma trimStart_blank (s : jsstring) :
  trimStart s = [] <-> forallb is_white_space s = true.
Proof.
  induction s as [|c s IH]; cbn; [tauto|].
  destruct (is_white_space c); cbn; [assumption|]. split; discriminate.
Qed.

(** [!password.trim()] holds exactly for the empty and the whitespace-only
    strings. *)
Lemma trim_blank (s : jsstring) :
  is_empty (trim s) = true <-> forallb is_white_space s = true.
Proof.
  unfold trim, trimEnd. split.
  - intro H. destruct (trimStart_head s) as [E|[c [rest [E Hc]]]].
    + now apply trimStart_blank.
    + exfalso. rewrite E in H.
      destruct (rev (trimStart (rev (c :: rest)))) eqn:R; [|discriminate].
      apply (f_equal (@rev _)) in R. rewrite rev_involutive in R.
      apply trimStart_blank in R. rewrite forallb_forall in R.
      assert (Hin : In c (rev (c :: rest))) by (apply -> in_rev; now left).
      specialize (R c Hin). congruence.
  - intro H. apply trimStart_blank in H. now rewrite H.
Qed.

Lemma analyze_nonempty (p : jsstring) :
  p <> [] -> exists r, analyze p = Analysed r.
Proof. destruct p; [congruence|]. intros _. cbn. eauto. Qed.

(** C7, at the inputs where the code leaves it. The password [" "] is
    whitespace-only, yet the registration form sends it for analysis; and
    it is a non-empty password for which the Analyzer page performs no
    analysis. *)
Theorem whitespace_password_counterexample :
  js " " <> [] /\ trim (js " ") = [] /\
  requests
    (snd (Register.handleChange endpoint Register.FPassword (js " ")
       {| Register.form :=
            {| Register.email := []; Register.password := [];
               Register.confirmPassword := [] |};
          Register.passwordAnalysis := None; Register.loading := false |}))
  = [("/analyze", [("password", JStr (js " "))])] /\
  Analyzer.analyzePassword endpoint
    (Analyzer.setPassword (js " ") (Analyzer.initial AnalysisResult))
  = (Analyzer.setPassword (js " ") (Analyzer.initial AnalysisResult), []).
Proof. repeat split. discriminate. Qed.

(** C7, amended. An empty password is never analysed: neither page sends
    a request for it and the analyzer rejects it.  A whitespace-only
    password is held back by the Analyzer page, which then does nothing.
    The registration form sends every non-empty value, and for every
    non-empty password the analyzer returns a result; the Analyzer page
    obtains and stores it for every password that is not whitespace-only. *)
Theorem analyzer_rejects_only_empty
  (api : oracle AnalysisResult) (p : jsstring)
  (st : Analyzer.state AnalysisResult) (rst : Register.state AnalysisResult) :
  (p = [] ->
   analyze p = ValidationError /\
   Analyzer.analyzePassword api (Analyzer.setPassword p st)
   = (Analyzer.setPassword p st, []) /\
   requests (snd (Register.handleChange api Register.FPassword p rst)) = []) /\
  (forallb is_white_space p = true ->
   Analyzer.analyzeDisabled (Analyzer.setPassword p st) = true /\
   Analyzer.analyzePassword api (Analyzer.setPassword p st)
   = (Analyzer.setPassword p st, [])) /\
  (p <> [] ->
   requests (snd (Register.handleChange api Register.FPassword p rst))
   = [("/analyze", [("password", JStr p)])] /\
   exists r, analyze p = Analysed r) /\
  (forallb is_white_space p = false ->
   exists r,
     analyze p = Analysed r /\
     Analyzer.analyzePassword endpoint (Analyzer.setPassword p st)
     = (Analyzer.setLoading false
          (Analyzer.setAnalysis r
             (Analyzer.setLoading true (Analyzer.setPassword p st))),
        [ApiPost "/analyze" [("password", JStr p)]])).
Proof.
  split; [|split; [|split]].
  - intros ->. repeat split.
  - intro B. apply trim_blank in B.
    unfold Analyzer.analyzePassword, Analyzer.analyzeDisabled.
    cbn [Analyzer.password Analyzer.setPassword]. rewrite B.
    split; [apply orb_true_r | reflexivity].
  - intro Hp. split; [|now apply analyze_nonempty].
    unfold Register.handleChange.
    destruct p as [|c p]; [congruence|]. cbn [List.length Nat.ltb Nat.leb].
    now destruct (api _ _).
  - intro B.
    assert (Hp : p <> []) by (intros ->; discriminate B).
    destruct (analyze_nonempty Hp) as [r Hr]. exists r. split; [assumption|].
    unfold Analyzer.analyzePassword.
    cbn [Analyzer.password Analyzer.setPassword].
    destruct (is_empty (trim p)) eqn:E.
    + apply trim_blank in E. congruence.
    + unfold endpoint. cbn. now rewrite Hr.
Qed.

Lemma analyzer_rejects_only_empty_witness :
  (exists r, analyze (js "hunter2") = Analysed r) /\
  analyze [] = ValidationError /\
  Analyzer.analyzePassword endpoint
    (Analyzer.setPassword (js "  ") (Analyzer.initial AnalysisResult))
  = (Analyzer.setPassword (js "  ") (Analyzer.initial AnalysisResult), []).
Proof.
  pose (rst := {| Register.form :=
                    {| Register.email := []; Register.password := [];
                       Register.confirmPassword := [] |};
                  Register.passwordAnalysis := @None AnalysisResult;
                  Register.loading := false |}).
  split; [|split].
  - destruct (analyzer_rejects_only_empty endpoint (js "hunter2")
              (Analyzer.initial _) rst) as [_ [_ [H _]]].
    apply H. vm_compute. discriminate.
  - destruct (analyzer_rejects_only_empty endpoint []
              (Analyzer.initial _) rst) as [H _].
    apply H. reflexivity.
  - destruct (analyzer_rejects_only_empty endpoint (js "  ")
              (Analyzer.initial _) rst) as [_ [H _]].
    apply H. vm_compute. reflexivity.
Defined.

End Analysis.

(** ** Anchored patterns *)

Section Patterns.

Import Regex.

Lemma seq_inv (r q : regex) (w : jsstring) :
  matches (Seq r q) w ->
  exists u v, w = (u ++ v)%list /\ matches r u /\ matches q v.
Proof. inversion 1; subst; eauto. Qed.

Lemma class_inv (p : code_unit -> bool) (w : jsstring) :
  matches (Class p) w -> exists c, w = [c] /\ p c = true.
Proof. inversion 1; subst; eauto. Qed.

Lemma alt_inv (r q : regex) (w : jsstring) :
  matches (Alt r q) w -> matches r w \/ matches q w.
Proof. inversion 1; subst; auto. Qed.

Lemma nullable_matches (r : regex) : nullable r = true <-> matches r [].
Proof.
  induction r as [| |p|r IHr s IHs|r IHr s IHs|r IHr]; cbn.
  - split; [discriminate | inversion 1].
  - split; [constructor | reflexivity].
  - split; [discriminate | inversion 1].
  - rewrite andb_true_iff, IHr, IHs. split.
    + intros [Hr Hs]. exact (MSeq Hr Hs).
    + intro H. apply seq_inv in H. destruct H as [u [v [E [Hu Hv]]]].
      symmetry in E. apply app_eq_nil in E. destruct E; subst. now split.
  - rewrite orb_true_iff, IHr, IHs. split.
    + intros [H|H]; [now apply MAltL | now apply MAltR].
    + apply alt_inv.
  - split; [constructor | reflexivity].
Qed.

(** A non-empty match of [r*] starts with a non-empty match of [r]. *)
Lemma star_cons (r : regex) (c : code_unit) (s : jsstring) :
  matches (Star r) (c :: s) ->
  exists u v, s = (u ++ v)%list /\ matches r (c :: u) /\ matches (Star r) v.
Proof.
  intro H. remember (Star r) as r' eqn:Er. remember (c :: s) as w eqn:Ew.
  induction H as [| | | | | |r0 u v Hu _ Hv IHv]; try discriminate.
  injection Er as ->. destruct u as [|c' u]; cbn in Ew.
  - now apply IHv.
  - injection Ew as -> <-. eauto.
Qed.

Lemma seq_cons (r q : regex) (c : code_unit) (s : jsstring) :
  matches (Seq r q) (c :: s) <->
  (exists u v, s = (u ++ v)%list /\ matches r (c :: u) /\ matches q v)
  \/ (matches r [] /\ matches q (c :: s)).
Proof.
  split.
  - intro H. apply seq_inv in H. destruct H as [u [v [E [Hu Hv]]]].
    destruct u as [|c' u]; cbn in E.
    + subst. now right.
    + injection E as -> ->. left. eauto.
  - intros [[u [v [-> [Hu Hv]]]]|[Hn Hq]].
    + exact (MSeq Hu Hv).
    + exact (MSeq Hn Hq).
Qed.

Lemma deriv_matches (r : regex) (c : code_unit) (s : jsstring) :
  matches (deriv c r) s <-> matches r (c :: s).
Proof.
  revert s.
  induction r as [| |p|r IHr q IHq|r IHr q IHq|r IHr]; intro s; cbn.
  - split; inversion 1.
  - split; inversion 1.
  - destruct (p c) eqn:E; split; intro H.
    + inversion H; subst. now constructor.
    + apply class_inv in H. destruct H as [c' [E' _]].
      injection E' as -> ->. constructor.
    + inversion H.
    + apply class_inv in H. destruct H as [c' [E' Hc]].
      injection E' as -> ->. congruence.
  - assert (Hseq : matches (Seq (deriv c r) q) s <->
                   exists u v, s = (u ++ v)%list /\ matches r (c :: u)
                               /\ matches q v).
    { split.
      - intro H. apply seq_inv in H. destruct H as [u [v [-> [Hu Hv]]]].
        exists u, v. split; [reflexivity|]. split; [now apply IHr | assumption].
      - intros [u [v [-> [Hu Hv]]]].
        constructor; [now apply IHr | assumption]. }
    rewrite seq_cons. destruct (nullable r) eqn:N.
    + apply nullable_matches in N. split.
      * intro H. apply alt_inv in H. destruct H as [H|H].
        -- left. now apply Hseq.
        -- right. split; [assumption | now apply IHq].
      * intros [H|[_ H]]; [apply MAltL; now apply Hseq|].
        apply MAltR. now apply IHq.
    + rewrite Hseq. split; [tauto|]. intros [H|[Hn _]]; [assumption|].
      apply nullable_matches in Hn. congruence.
  - split; intro H; apply alt_inv in H; destruct H as [H|H].
    + apply MAltL. now apply IHr.
    + apply MAltR. now apply IHq.
    + apply MAltL. now apply IHr.
    + apply MAltR. now apply IHq.
  - split; intro H.
    + apply seq_inv in H. destruct H as [u [v [-> [Hu Hv]]]].
      apply (MStarS (u := c :: u)); [now apply IHr | assumption].
    + apply star_cons in H. destruct H as [u [v [-> [Hu Hv]]]].
      constructor; [now apply IHr | assumption].
Qed.

(** The matcher decides the language of the pattern. *)
Lemma test_anchored_matches (r : regex) (s : jsstring) :
  test_anchored r s = true <-> matches r s.
Proof.
  revert r. induction s as [|c s IH]; intro r; cbn.
  - apply nullable_matches.
  - rewrite IH. apply deriv_matches.
Qed.

Lemma star_class (p : code_unit -> bool) (s : jsstring) :
  matches (Star (Class p)) s <-> Forall (fun c => p c = true) s.
Proof.
  split.
  - intro H. remember (Star (Class p)) as r eqn:Er.
    induction H as [| | | | | |r0 u v Hu _ _ IHv]; try discriminate.
    + constructor.
    + injection Er as ->. apply class_inv in Hu.
      destruct Hu as [c [-> Hc]]. cbn. constructor; auto.
  - induction 1 as [|c s Hc _ IH]; [constructor|].
    apply (MStarS (u := [c])); [now constructor | assumption].
Qed.

Lemma plus_class (p : code_unit -> bool) (s : jsstring) :
  matches (Plus (Class p)) s <-> s <> [] /\ Forall (fun c => p c = true) s.
Proof.
  unfold Plus. split.
  - intro H. apply seq_inv in H. destruct H as [u [v [-> [Hu Hv]]]].
    apply class_inv in Hu. destruct Hu as [c [-> Hc]].
    apply star_class in Hv. cbn.
    split; [discriminate | now constructor].
  - intros [Hn Hf]. destruct s as [|c s]; [congruence|].
    inversion Hf; subst.
    apply (MSeq (u := [c])); [now constructor | now apply star_class].
Qed.

Lemma atleast2_class (p : code_unit -> bool) (s : jsstring) :
  matches (AtLeast2 (Class p)) s <->
  2 <= List.length s /\ Forall (fun c => p c = true) s.
Proof.
  unfold AtLeast2. split.
  - intro H. apply seq_inv in H. destruct H as [u [v [-> [Hu Hv]]]].
    apply seq_inv in Hv. destruct Hv as [u' [v' [-> [Hu' Hv']]]].
    apply class_inv in Hu. destruct Hu as [a [-> Ha]].
    apply class_inv in Hu'. destruct Hu' as [b [-> Hb]].
    apply star_class in Hv'. cbn.
    split; [lia | repeat constructor; assumption].
  - intros [Hl Hf]. destruct s as [|a [|b s]]; cbn in Hl; try lia.
    inversion Hf as [|? ? Ha Hf']; subst.
    inversion Hf' as [|? ? Hb Hf'']; subst.
    apply (MSeq (u := [a])); [now constructor|].
    apply (MSeq (u := [b])); [now constructor | now apply star_class].
Qed.

End Patterns.

(** ** Email format *)

Section EmailFormat.

Import Regex HelpersText.

Ltac to_ranges :=
  unfold re_local, re_domain, re_letter, re_lower, re_upper, re_digit,
    is_white_space, is_at, is_dot, in_range in *;
  repeat rewrite ?orb_true_iff, ?andb_true_iff, ?orb_false_iff,
    ?andb_false_iff, ?N.leb_le, ?N.eqb_eq, ?N.leb_gt, ?N.eqb_neq in *.

Lemma is_at_eq (c : code_unit) : is_at c = true <-> c = 64%N.
Proof. apply N.eqb_eq. Qed.

Lemma is_dot_eq (c : code_unit) : is_dot c = true <-> c = 46%N.
Proof. apply N.eqb_eq. Qed.

Lemma re_domain_local (c : code_unit) : re_domain c = true -> re_local c = true.
Proof. to_ranges. tauto. Qed.

Lemma re_letter_local (c : code_unit) : re_letter c = true -> re_local c = true.
Proof. to_ranges. tauto. Qed.

Lemma re_local_not_at (c : code_unit) : re_local c = true -> c <> 64%N.
Proof. to_ranges. lia. Qed.

Lemma re_local_not_space (c : code_unit) :
  re_local c = true -> is_white_space c = false.
Proof.
  intro H. destruct (is_white_space c) eqn:W; [exfalso|reflexivity].
  to_ranges. lia.
Qed.

(** X3. [isValidEmail] accepts exactly the strings made of a non-empty local
    part over letters, digits and [._%+-], one [@], a non-empty domain over
    letters, digits, [.] and [-], a [.] and at least two letters. *)
Theorem isValidEmail_shape (email : jsstring) :
  isValidEmail email = true <-> address_shape email.
Proof.
  unfold isValidEmail, address_shape, pattern.
  rewrite test_anchored_matches. split.
  - intro H.
    apply seq_inv in H. destruct H as [l [w1 [-> [Hl H]]]].
    apply seq_inv in H. destruct H as [a [w2 [-> [Ha H]]]].
    apply seq_inv in H. destruct H as [d [w3 [-> [Hd H]]]].
    apply seq_inv in H. destruct H as [o [t [-> [Ho Ht]]]].
    apply class_inv in Ha. destruct Ha as [ca [-> Hca]].
    apply class_inv in Ho. destruct Ho as [co [-> Hco]].
    apply is_at_eq in Hca. apply is_dot_eq in Hco. subst.
    apply plus_class in Hl. apply plus_class in Hd.
    apply atleast2_class in Ht.
    exists l, d, t. tauto.
  - intros [l [d [t [-> [Hl [Fl [Hd [Fd [Ht Ft]]]]]]]]].
    apply MSeq; [now apply plus_class|].
    apply MSeq; [constructor; reflexivity|].
    apply MSeq; [now apply plus_class|].
    apply MSeq; [constructor; reflexivity|].
    now apply atleast2_class.
Qed.

Lemma isValidEmail_shape_witness : address_shape (js "ada@mail.org").
Proof. apply isValidEmail_shape. vm_compute. reflexivity. Defined.

Lemma count_at_zero (s : jsstring) :
  Forall (fun c => re_local c = true) s -> count_occ N.eq_dec s 64%N = 0.
Proof.
  intro F. apply count_occ_not_In. intro Hin.
  rewrite Forall_forall in F. now apply (re_local_not_at (F _ Hin)).
Qed.

(** X4. Every address that [isValidEmail] accepts contains exactly one
    [@], has at least 6 code units, and consists of ASCII letters, digits
    and the characters [._%+-@] only; in particular it holds no white
    space. *)
Theorem isValidEmail_accepts_only (email : jsstring) :
  isValidEmail email = true ->
  count_occ N.eq_dec email 64%N = 1 /\
  6 <= List.length email /\
  Forall (fun c => re_local c = true \/ c = 64%N) email /\
  Forall (fun c => is_white_space c = false) email.
Proof.
  intro H. apply isValidEmail_shape in H.
  destruct H as [l [d [t [-> [Hl [Fl [Hd [Fd [Ht Ft]]]]]]]]].
  assert (Fd' : Forall (fun c => re_local c = true) d).
  { eapply Forall_impl; [|exact Fd]. apply re_domain_local. }
  assert (Ft' : Forall (fun c => re_local c = true) t).
  { eapply Forall_impl; [|exact Ft]. apply re_letter_local. }
  assert (All : Forall (fun c => re_local c = true \/ c = 64%N)
                  (l ++ [64%N] ++ d ++ [46%N] ++ t)).
  { repeat (apply Forall_app; split);
      try (eapply Forall_impl; [|eassumption]; cbn; tauto).
    - constructor; [now right | constructor].
    - constructor; [now left | constructor]. }
  split; [|split; [|split]].
  - rewrite !count_occ_app, (count_at_zero Fl), (count_at_zero Fd'),
      (count_at_zero Ft'). reflexivity.
  - rewrite !length_app. cbn [List.length].
    destruct l; [congruence|]. destruct d; [congruence|]. cbn. lia.
  - exact All.
  - eapply Forall_impl; [|exact All]. intros c [Hc| ->].
    + now apply re_local_not_space.
    + reflexivity.
Qed.

Lemma isValidEmail_accepts_only_witness :
  count_occ N.eq_dec (js "ada.l+tag@mail.example.org") 64%N = 1.
Proof.
  apply (isValidEmail_accepts_only (js "ada.l+tag@mail.example.org")).
  vm_compute. reflexivity.
Defined.

Example isValidEmail_rejects :
  isValidEmail (js "ada@localhost") = false /\
  isValidEmail (js "ada @mail.org") = false /\
  isValidEmail (js "a@b@mail.org") = false /\
  isValidEmail (js "ada@mail.o") = false /\
  isValidEmail [] = false.
Proof. vm_compute. repeat split. Qed.

End EmailFormat.

(** ** Truncation *)

Section Truncation.

Import HelpersText.

Lemma slice_prefix (s : jsstring) (n : Z) :
  (0 <= n)%Z -> slice s 0 n = firstn (Z.to_nat n) s.
Proof.
  intro Hn. unfold slice. cbn [Z.ltb Z.compare].
  rewrite (Z.min_l 0) by lia. cbn [Z.to_nat skipn].
  replace (n <? 0)%Z with false by (symmetry; apply Z.ltb_ge; lia).
  destruct (Z.le_gt_cases n (Z.of_nat (List.length s))) as [Hle|Hgt].
  - rewrite Z.min_l by lia. f_equal. lia.
  - rewrite Z.min_r by lia.
    replace (Z.to_nat (Z.max (Z.of_nat (List.length s) - 0) 0))
      with (List.length s) by lia.
    rewrite firstn_all. symmetry. apply firstn_all2. lia.
Qed.

Lemma truncate_short (t : jsstring) (n : Z) :
  (Z.of_nat (List.length t) <= n)%Z -> truncate (Some t) n = t.
Proof.
  intro H. unfold truncate. destruct t as [|c t]; [reflexivity|].
  cbn [is_empty]. now rewrite (proj2 (Z.leb_le _ _) H).
Qed.

Lemma truncate_long (t : jsstring) (n : Z) :
  (0 <= n < Z.of_nat (List.length t))%Z ->
  truncate (Some t) n = (firstn (Z.to_nat n) t ++ js "...")%list.
Proof.
  intro H. unfold truncate. destruct t as [|c t]; [cbn in H; lia|].
  cbn [is_empty]. rewrite (proj2 (Z.leb_gt _ _)) by lia.
  now rewrite slice_prefix by lia.
Qed.

(** X1. For a non-negative limit, [truncate] returns a text of at most
    [maxLength] code units unchanged and replaces a longer one by its first
    [maxLength] code units followed by three dots: the result has at most
    [maxLength + 3] code units, so it can be up to two longer than the text
    it abbreviates, and it always starts like the text. *)
Theorem truncate_bound (t : jsstring) (maxLength : Z) :
  (0 <= maxLength)%Z ->
  (Z.of_nat (List.length t) <= maxLength ->
   truncate (Some t) maxLength = t)%Z /\
  (maxLength < Z.of_nat (List.length t) ->
   truncate (Some t) maxLength
   = (firstn (Z.to_nat maxLength) t ++ js "...")%list /\
   Z.of_nat (List.length (truncate (Some t) maxLength)) = maxLength + 3)%Z /\
  (Z.of_nat (List.length (truncate (Some t) maxLength)) <= maxLength + 3)%Z /\
  firstn (Z.to_nat maxLength) (truncate (Some t) maxLength)
  = firstn (Z.to_nat maxLength) t.
Proof.
  intro Hn.
  destruct (Z.le_gt_cases (Z.of_nat (List.length t)) maxLength) as [Hle|Hgt].
  - rewrite (@truncate_short t maxLength Hle).
    repeat split; intros; try lia.
  - assert (E := @truncate_long t maxLength (conj Hn Hgt)).
    assert (L : List.length (firstn (Z.to_nat maxLength) t)
                = Z.to_nat maxLength) by (apply firstn_length_le; lia).
    rewrite E. repeat split; intros; try lia.
    + rewrite length_app, L. cbn. lia.
    + rewrite length_app, L. cbn. lia.
    + rewrite firstn_app, L, Nat.sub_diag, firstn_O, app_nil_r.
      now rewrite firstn_firstn, Nat.min_id.
Qed.

Lemma truncate_bound_witness :
  truncate (Some (js "https://example.org/a/very/long/path/to/a/page")) 40
  = js "https://example.org/a/very/long/path/to/..." /\
  truncate (Some (js "short")) 40 = js "short".
Proof.
  destruct (@truncate_bound
              (js "https://example.org/a/very/long/path/to/a/page") 40)
    as [_ [H _]]; [lia|].
  destruct (@truncate_bound (js "short") 40) as [H' _]; [lia|].
  split; [apply H | apply H']; vm_compute; [reflexivity | discriminate].
Defined.

(** X2. For a non-negative limit, truncating twice is truncating once, and
    a missing or empty text gives the empty string. *)
Theorem truncate_idempotent (t : jsstring) (maxLength : Z) :
  (0 <= maxLength)%Z ->
  truncate (Some (truncate (Some t) maxLength)) maxLength
  = truncate (Some t) maxLength /\
  truncate None maxLength = [] /\ truncate (Some []) maxLength = [].
Proof.
  intro Hn. split; [|split; reflexivity].
  destruct (Z.le_gt_cases (Z.of_nat (List.length t)) maxLength) as [Hle|Hgt].
  - rewrite (@truncate_short t maxLength Hle). now apply truncate_short.
  - assert (Hlt : (0 <= maxLength < Z.of_nat (List.length t))%Z) by lia.
    rewrite (@truncate_long t maxLength Hlt).
    assert (L : List.length (firstn (Z.to_nat maxLength) t)
                = Z.to_nat maxLength) by (apply firstn_length_le; lia).
    rewrite truncate_long.
    + now rewrite firstn_app, L, Nat.sub_diag, firstn_O, app_nil_r,
        firstn_firstn, Nat.min_id.
    + rewrite length_app, L. cbn. lia.
Qed.

Lemma truncate_idempotent_witness :
  truncate (Some (truncate (Some (js "0123456789")) 4)) 4 = js "0123...".
Proof.
  rewrite (proj1 (@truncate_idempotent (js "0123456789") 4 ltac:(lia))).
  vm_compute. reflexivity.
Defined.

End Truncation.

(** ** The score ring *)

Section ScoreRing.

Import SecurityScore Tier.
Open Scope string_scope.

(** X5. The score ring changes its colour and its label at 20, 40, 60 and
    80, and for every score, [NaN] included, the label is the one that
    belongs to the colour. *)
Theorem score_ring_bands (score : number) (q : Q) :
  getScoreLabel score = label_of_color (getScoreColor score) /\
  banded getScoreColor "#ef4444" "#f97316" "#eab308" "#06b6d4" "#10b981" q /\
  banded getScoreLabel "Critical" "Poor" "Fair" "Good" "Excellent" q.
Proof.
  split; [|split].
  - unfold getScoreLabel, getScoreColor.
    destruct (ge score 80), (ge score 60), (ge score 40), (ge score 20);
      reflexivity.
  - unfold getScoreColor, banded, ge.
    destruct (Qle_bool 80 q) eqn:E80; destruct (Qle_bool 60 q) eqn:E60;
    destruct (Qle_bool 40 q) eqn:E40; destruct (Qle_bool 20 q) eqn:E20;
    repeat match goal with
      | H : Qle_bool _ _ = true |- _ => apply Qle_bool_iff in H
      | H : Qle_bool _ _ = false |- _ => apply Qle_bool_false in H
      end;
    repeat split; intros; try reflexivity; try lra; try discriminate.
  - unfold getScoreLabel, banded, ge.
    destruct (Qle_bool 80 q) eqn:E80; destruct (Qle_bool 60 q) eqn:E60;
    destruct (Qle_bool 40 q) eqn:E40; destruct (Qle_bool 20 q) eqn:E20;
    repeat match goal with
      | H : Qle_bool _ _ = true |- _ => apply Qle_bool_iff in H
      | H : Qle_bool _ _ = false |- _ => apply Qle_bool_false in H
      end;
    repeat split; intros; try reflexivity; try lra; try discriminate.
Qed.

End ScoreRing.

(** ** Generator flags *)

Section GeneratorFlags.

Import PasswordGenerator.
Open Scope string_scope.
Open Scope Z_scope.

(** X6. The generator form accepts every combination of the four class
    check boxes, the one with no class included, and sends it as it is:
    for each combination some reachable state posts a password request
    with exactly these flags. *)
Theorem generator_sends_any_flags (l u d y : bool) :
  exists o,
    reachable o /\
    payload o =
      [("type", JStr (js "password")); ("length", JNum 16);
       ("use_lowercase", JBool l); ("use_uppercase", JBool u);
       ("use_digits", JBool d); ("use_symbols", JBool y)].
Proof.
  exists (updateClass KSymbols y (updateClass KDigits d
           (updateClass KUppercase u (updateClass KLowercase l initial)))).
  split; [|reflexivity].
  repeat (eapply reach_step; [|apply step_check; reflexivity]).
  apply reach_initial.
Qed.

End GeneratorFlags.

(** ** The breach page *)

Section BreachPage.

Import BreachChecker.
Open Scope string_scope.

(** X7. Both checks refuse an empty or whitespace-only field with a toast
    and send nothing; for every other field value they send one request,
    which carries the value as typed, surrounding white space included. *)
Theorem breach_checks_guard (api : oracle breach_data) (st : state) :
  (forallb is_white_space (email st) = true ->
   checkEmail api st = (st, [ToastError "Please enter an email address"])) /\
  (forallb is_white_space (email st) = false ->
   requests (snd (checkEmail api st))
   = [("/breach/check-email", [("email", JStr (email st))])]) /\
  (forallb is_white_space (password st) = true ->
   checkPassword api st = (st, [ToastError "Please enter a password"])) /\
  (forallb is_white_space (password st) = false ->
   requests (snd (checkPassword api st))
   = [("/breach/check-password", [("password", JStr (password st))])]).
Proof.
  unfold checkEmail, checkPassword.
  repeat split; intro B.
  - apply trim_blank in B. now rewrite B.
  - destruct (is_empty (trim (email st))) eqn:E.
    + apply trim_blank in E. congruence.
    + now destruct (api _ _).
  - apply trim_blank in B. now rewrite B.
  - destruct (is_empty (trim (password st))) eqn:E.
    + apply trim_blank in E. congruence.
    + now destruct (api _ _).
Qed.

Lemma breach_checks_guard_witness :
  requests
    (snd (checkEmail (@Inputs.down _) (setEmail (js " ada@mail.org ") initial)))
  = [("/breach/check-email", [("email", JStr (js " ada@mail.org "))])] /\
  checkPassword (@Inputs.down _) (setPassword (js "  ") initial)
  = (setPassword (js "  ") initial, [ToastError "Please enter a password"]).
Proof.
  split.
  - apply (proj1 (proj2 (breach_checks_guard (@Inputs.down _)
                           (setEmail (js " ada@mail.org ") initial)))).
    vm_compute. reflexivity.
  - apply (proj1 (proj2 (proj2 (breach_checks_guard (@Inputs.down _)
                                  (setPassword (js "  ") initial))))).
    vm_compute. reflexivity.
Defined.

(** X8. The two sections are independent and keep what they show: an
    email check never changes the password field, its result or its
    loading flag, and a rejected email check leaves the email result that
    was on screen; the same holds with the roles exchanged. *)
Theorem breach_sections_independent (api : oracle breach_data) (st : state) :
  (password (fst (checkEmail api st)) = password st /\
   passwordResult (fst (checkEmail api st)) = passwordResult st /\
   loading_password (fst (checkEmail api st)) = loading_password st /\
   email (fst (checkEmail api st)) = email st /\
   (api "/breach/check-email" [("email", JStr (email st))] = None ->
    emailResult (fst (checkEmail api st)) = emailResult st)) /\
  (email (fst (checkPassword api st)) = email st /\
   emailResult (fst (checkPassword api st)) = emailResult st /\
   loading_email (fst (checkPassword api st)) = loading_email st /\
   password (fst (checkPassword api st)) = password st /\
   (api "/breach/check-password" [("password", JStr (password st))] = None ->
    passwordResult (fst (checkPassword api st)) = passwordResult st)).
Proof.
  unfold checkEmail, checkPassword. split.
  - destruct (is_empty (trim (email st))); [now repeat split|].
    destruct (api _ _); repeat split; try reflexivity. discriminate.
  - destruct (is_empty (trim (password st))); [now repeat split|].
    destruct (api _ _); repeat split; try reflexivity. discriminate.
Qed.

Lemma breach_sections_independent_witness :
  emailResult
    (fst (checkEmail (@Inputs.down _)
            (setEmail (js "ada@mail.org")
               (setEmailResult Inputs.outage initial))))
  = Some Inputs.outage.
Proof.
  apply (proj2 (proj2 (proj2 (proj2 (proj1
    (breach_sections_independent (@Inputs.down _)
       (setEmail (js "ada@mail.org")
          (setEmailResult Inputs.outage initial)))))))).
  reflexivity.
Defined.

End BreachPage.

(** ** The registration meter *)

Section RegistrationMeter.

Import Register.
Open Scope string_scope.

(** X9. [handleChange] stores the value in the named field and leaves the
    other two alone.  Edits of the email and of the confirmation send
    nothing and keep the analysis; emptying the password clears the
    analysis; and when the analysis request for a new password is
    rejected, the analysis of the previous password stays beside the new
    one. *)
Theorem register_handleChange_frame
  (R : Type) (api : oracle R) (v : jsstring) (st : state R) :
  (fst (handleChange api FEmail v st)
   = {| form := setField FEmail v (form st);
        passwordAnalysis := passwordAnalysis st; loading := loading st |}
   /\ snd (handleChange api FEmail v st) = []) /\
  (fst (handleChange api FConfirmPassword v st)
   = {| form := setField FConfirmPassword v (form st);
        passwordAnalysis := passwordAnalysis st; loading := loading st |}
   /\ snd (handleChange api FConfirmPassword v st) = []) /\
  form (fst (handleChange api FPassword v st))
  = setField FPassword v (form st) /\
  passwordAnalysis (fst (handleChange api FPassword [] st)) = None /\
  (v <> [] -> api "/analyze" [("password", JStr v)] = None ->
   passwordAnalysis (fst (handleChange api FPassword v st))
   = passwordAnalysis st).
Proof.
  repeat split.
  - unfold handleChange. destruct (Nat.ltb 0 (List.length v)); [|reflexivity].
    now destruct (api _ _).
  - intros Hv Hr. unfold handleChange.
    destruct v as [|c v]; [congruence|]. cbn [List.length Nat.ltb Nat.leb].
    now rewrite Hr.
Qed.

Lemma register_handleChange_frame_witness :
  passwordAnalysis
    (fst (handleChange (@Inputs.down nat) FPassword (js "new")
       {| form := {| email := []; password := js "old";
                     confirmPassword := [] |};
          passwordAnalysis := Some 7; loading := false |}))
  = Some 7.
Proof.
  apply (proj2 (proj2 (proj2 (proj2
    (register_handleChange_frame (@Inputs.down nat) (js "new")
       {| form := {| email := []; password := js "old";
                     confirmPassword := [] |};
          passwordAnalysis := Some 7; loading := false |}))))).
  - vm_compute. discriminate.
  - reflexivity.
Defined.

End RegistrationMeter.

(** ** The vault list *)

Section VaultList.

Import Vault.
Open Scope string_scope.
Open Scope Z_scope.

Lemma NoDup_ids_filter (p : entry -> bool) (es : list entry) :
  NoDup (map id es) -> NoDup (map id (filter p es)).
Proof.
  induction es as [|e es IH]; cbn; [trivial|].
  intro H. apply NoDup_cons_iff in H. destruct H as [Hn Hd].
  destruct (p e); cbn; [|auto].
  constructor; [|auto]. intro Hin. apply Hn.
  apply in_map_iff in Hin. destruct Hin as [x [Ex Hx]].
  apply filter_In in Hx. apply in_map_iff. exists x. tauto.
Qed.

Lemma ids_replace (i : Z) (e' : entry) (es : list entry) :
  id e' = i ->
  map id (map (fun e => if id e =? i then e' else e) es) = map id es.
Proof.
  intro E. rewrite map_map. apply map_ext. intro e.
  destruct (Z.eqb_spec (id e) i); congruence.
Qed.

(** X10. A confirmed deletion that the back end accepts removes exactly
    the entries with the given id and keeps the others in their order; a
    declined one sends nothing, and a declined or rejected one leaves the
    list as it is. *)
Theorem handleDelete_removes
  (confirmed : bool) (api : server) (i : Z) (st : state) :
  (confirmed = true -> api (Delete i) <> None ->
   entries (fst (handleDelete confirmed api i st))
   = filter (fun e => negb (id e =? i)) (entries st) /\
   (forall e, In e (entries (fst (handleDelete confirmed api i st))) <->
              In e (entries st) /\ id e <> i) /\
   ~ In i (ids (fst (handleDelete confirmed api i st)))) /\
  (confirmed = false -> handleDelete confirmed api i st = (st, [])) /\
  (api (Delete i) = None -> fst (handleDelete confirmed api i st) = st).
Proof.
  unfold handleDelete. split; [|split].
  - intros -> Hok. cbn [negb].
    destruct (api (Delete i)); [|congruence]. cbn [fst entries setEntries].
    assert (F : forall x, In x (filter (fun e => negb (id e =? i)) (entries st))
                          <-> In x (entries st) /\ id x <> i).
    { intro x. rewrite filter_In, negb_true_iff, Z.eqb_neq. tauto. }
    split; [reflexivity|]. split; [exact F|].
    unfold ids. cbn [entries]. intro Hin. apply in_map_iff in Hin.
    destruct Hin as [x [Ex Hx]]. apply F in Hx. tauto.
  - now intros ->.
  - intros ->. now destruct (negb confirmed).
Qed.

Lemma handleDelete_removes_witness :
  entries
    (fst (handleDelete true
            (fun _ => Some {| id := 0; fields := initialForm None |})
            2
            {| entries := [ {| id := 1; fields := initialForm None |};
                            {| id := 2; fields := initialForm None |};
                            {| id := 3; fields := initialForm None |} ];
               showModal := false; editingEntry := None |}))
  = [ {| id := 1; fields := initialForm None |};
      {| id := 3; fields := initialForm None |} ].
Proof.
  rewrite (proj1 (proj1 (handleDelete_removes true
     (fun _ => Some {| id := 0; fields := initialForm None |}) 2
     {| entries := [ {| id := 1; fields := initialForm None |};
                     {| id := 2; fields := initialForm None |};
                     {| id := 3; fields := initialForm None |} ];
        showModal := false; editingEntry := None |}) eq_refl
     ltac:(discriminate))).
  reflexivity.
Defined.

(** X11. With a back end that answers an update with the updated entry
    and a creation with an entry under a new id, the ids of the list stay
    pairwise different under every deletion and every save; an update
    keeps the ids and the order of the list, a creation puts the new entry
    first, and a rejected save changes nothing. *)
Theorem vault_ids_stay_unique (api : server) (f : formData) (st : state) :
  NoDup (ids st) -> answers_in_kind api st ->
  (forall c i, NoDup (ids (fst (handleDelete c api i st)))) /\
  NoDup (ids (fst (handleSave api f st))) /\
  (forall ed e', editingEntry st = Some ed -> api (Put (id ed) f) = Some e' ->
     ids (fst (handleSave api f st)) = ids st) /\
  (forall e', editingEntry st = None -> api (Post f) = Some e' ->
     entries (fst (handleSave api f st)) = e' :: entries st) /\
  (forall r, In (Sent r) (snd (handleSave api f st)) -> api r = None ->
     fst (handleSave api f st) = st).
Proof.
  intros Hnd [Hput Hpost]. split; [|split; [|split; [|split]]].
  - intros c i. unfold handleDelete.
    destruct (negb c); [assumption|].
    destruct (api (Delete i)); [|assumption].
    unfold ids. cbn [fst entries setEntries]. now apply NoDup_ids_filter.
  - unfold handleSave. destruct (editingEntry st) as [ed|].
    + destruct (api (Put (id ed) f)) as [e'|] eqn:E; [|assumption].
      unfold ids. cbn [fst entries].
      rewrite (@ids_replace (id ed) e' (entries st)); [assumption|].
      now apply (Hput _ f).
    + destruct (api (Post f)) as [e'|] eqn:E; [|assumption].
      unfold ids. cbn [fst entries map]. constructor; [|assumption].
      now apply (Hpost f).
  - intros ed e' Hed Hr. unfold handleSave. rewrite Hed, Hr.
    unfold ids. cbn [fst entries]. apply ids_replace. now apply (Hput _ f).
  - intros e' Hed Hr. unfold handleSave. now rewrite Hed, Hr.
  - intros r Hin Hr. unfold handleSave in *.
    destruct (editingEntry st) as [ed|].
    + destruct (api (Put (id ed) f)) eqn:E; [|reflexivity].
      destruct Hin as [Hin|[Hin|[]]]; [|discriminate Hin].
      injection Hin as <-. congruence.
    + destruct (api (Post f)) eqn:E; [|reflexivity].
      destruct Hin as [Hin|[Hin|[]]]; [|discriminate Hin].
      injection Hin as <-. congruence.
Qed.

Lemma vault_ids_stay_unique_witness :
  NoDup
    (ids (fst (handleSave
       (fun r => match r with
                 | Put i f => Some {| id := i; fields := f |}
                 | Post f => Some {| id := 9; fields := f |}
                 | Delete _ => None
                 end)
       (initialForm None)
       {| entries := [ {| id := 1; fields := initialForm None |};
                       {| id := 2; fields := initialForm None |} ];
          showModal := true; editingEntry := None |}))).
Proof.
  refine (proj1 (proj2 (@vault_ids_stay_unique _ _ _ _ _))).
  - vm_compute. repeat constructor; cbn; lia.
  - split.
    + intros i f e H. injection H as <-. reflexivity.
    + intros f e H. injection H as <-. vm_compute. lia.
Defined.

End VaultList.

(** ** Category badges *)

Section Categories.

Import Helpers VaultItem.
Open Scope string_scope.

(** X12. Each of the six categories that the vault form offers has a badge
    class of its own, the six classes are pairwise different, and every
    other category, a missing one included, that is not the name of a
    member inherited from [Object.prototype] gets the class of
    ["general"]. *)
Theorem getCategoryColor_badges :
  (forall c, In c Vault.categories ->
     own colors c = Some (getCategoryColor c)) /\
  NoDup (map getCategoryColor Vault.categories) /\
  (forall key,
     ~ In key (map fst colors) -> ~ In key (map fst object_prototype) ->
     getCategoryColor key = VString (js "bg-gray-500/20 text-gray-400")) /\
  getCategoryColor "undefined" = VString (js "bg-gray-500/20 text-gray-400").
Proof.
  split; [|split; [|split]].
  - intros c Hc. unfold Vault.categories, In in Hc.
    repeat (destruct Hc as [<-|Hc]; [reflexivity|]). contradiction.
  - vm_compute.
    repeat (constructor;
            [intro H; repeat (destruct H as [H|H]; [discriminate H|]);
             contradiction|]).
    constructor.
  - intros key H1 H2. unfold getCategoryColor, get.
    now rewrite (own_None _ _ H1), (own_None _ _ H2).
  - reflexivity.
Qed.

End Categories.

(** ** The login form *)

Section LoginForm.

Import Login LoginFlow.
Open Scope string_scope.

Lemma login_invariant (st : state) :
  reachable st ->
  (requires2FA st = false -> totpCode st = []) /\
  Forall decimal (totpCode st) /\ List.length (totpCode st) <= 6.
Proof.
  induction 1 as [|name v st _ IH|raw st _ _ H2|login st _ IH].
  - repeat split; [constructor | cbn; lia].
  - destruct name; exact IH.
  - cbn [onChangeTotp totpCode requires2FA]. split; [congruence|].
    apply (sanitize_decimal raw).
  - unfold handleSubmit. destruct (handleSubmit_request st) as [url data].
    destruct (login data) as [|[|]]; cbn [fst totpCode requires2FA];
      try exact IH.
    split; [discriminate | apply IH].
Qed.

(** X13. In every state that the login form can reach, the login request
    carries the email and the password, and a [totp_code] only after the
    back end has asked for one and the user has typed a code: the code
    sent is the content of the code field, 1 to 6 decimal digits. *)
Theorem login_request_totp (st : state) :
  reachable st ->
  fst (handleSubmit_request st) = "/auth/login" /\
  firstn 2 (snd (handleSubmit_request st))
  = [("email", JStr (email st)); ("password", JStr (password st))] /\
  (requires2FA st = false ->
   snd (handleSubmit_request st)
   = [("email", JStr (email st)); ("password", JStr (password st))]) /\
  (forall code,
     PasswordGenerator.field "totp_code" (snd (handleSubmit_request st))
     = Some (JStr code) ->
     requires2FA st = true /\ code = totpCode st /\
     1 <= List.length code <= 6 /\ Forall decimal code).
Proof.
  intro R. destruct (login_invariant R) as [H0 [Hd Hl]].
  unfold handleSubmit_request, AuthContext.login_payload.
  cbn [fst snd]. split; [reflexivity|]. split; [reflexivity|]. split.
  - now intros ->.
  - intro code. destruct (requires2FA st); [|discriminate].
    destruct (totpCode st) as [|c t] eqn:E; [discriminate|].
    cbn. intro H. injection H as <-. cbn [List.length] in *.
    repeat split; trivial; lia.
Qed.

Lemma login_request_totp_witness :
  snd (handleSubmit_request
         (onChangeTotp (js "123 456")
            (fst (handleSubmit (fun _ => LoginRejected true)
                    (handleChange FPassword (js "pw")
                       (handleChange FEmail (js "ada@mail.org") initial))))))
  = [("email", JStr (js "ada@mail.org")); ("password", JStr (js "pw"));
     ("totp_code", JStr (js "123456"))].
Proof.
  assert (R : reachable
            (onChangeTotp (js "123 456")
               (fst (handleSubmit (fun _ => LoginRejected true)
                       (handleChange FPassword (js "pw")
                          (handleChange FEmail (js "ada@mail.org")
                             initial)))))).
  { apply reach_totp; [|reflexivity].
    apply reach_submit. do 2 apply reach_change. apply reach_initial. }
  pose proof (proj1 (proj2 (login_request_totp R))) as H.
  vm_compute in H |- *. reflexivity.
Defined.

End LoginForm.

(** ** The session *)

Section SessionTokens.

Import AuthSession.

Variable User : Type.

Lemma session_paired (s : session User) (p : bool) :
  reachable s p -> tokens_paired s.
Proof.
  unfold tokens_paired.
  induction 1 as [s0 Hu Hp|a s _ IH|a s p _ IH|a s p _ IH|a s p _ IH
                 |u s p _ IH].
  - unfold mountEffect. now destruct (token_present s0).
  - destruct a; cbn; [assumption | tauto].
  - destruct a; cbn; [|assumption]. split; discriminate.
  - destruct a; cbn; [|assumption]. split; discriminate.
  - cbn. tauto.
  - exact IH.
Qed.

(** X14. Over a page load, in every order in which the answers of
    [/auth/me], [login], [register] and [logout] and the calls of
    [updateUser] come in, the provider stores and removes the access and
    the refresh token together; an accepted [login] stores both tokens of
    the answer and sets its user, a rejected [login] or [register] changes
    nothing, [logout] ends with no user and no token whatever the back end
    answers, and a rejected [/auth/me] removes both tokens and keeps the
    user that is set. *)
Theorem session_tokens (s : session User) (p : bool) :
  reachable s p ->
  tokens_paired s /\
  (forall d, user (login (Some d) s) = Some (account d) /\
             stored_access (login (Some d) s) = Some (access_token d) /\
             stored_refresh (login (Some d) s) = Some (refresh_token d)) /\
  login None s = s /\ register None s = s /\
  (forall a, isAuthenticated (logout a s) = false /\
             stored_access (logout a s) = None /\
             stored_refresh (logout a s) = None) /\
  (user (fetchUser None s) = user s /\
   stored_access (fetchUser None s) = None /\
   stored_refresh (fetchUser None s) = None).
Proof.
  intro R. split; [exact (session_paired R)|]. repeat split.
Qed.


End SessionTokens.

Lemma session_tokens_witness :
  AuthSession.tokens_paired
    (AuthSession.fetchUser (@None nat)
       (AuthSession.login
          (Some {| AuthSession.access_token := js "fresh";
                   AuthSession.refresh_token := js "fresh";
                   AuthSession.account := 7 |})
          (AuthSession.mountEffect
             {| AuthSession.user := @None nat; AuthSession.loading := true;
                AuthSession.stored_access := Some (js "stale");
                AuthSession.stored_refresh := Some (js "stale") |}))).
Proof.
  refine (proj1 (@session_tokens nat _ false _)).
  apply AuthSession.reach_fetched, AuthSession.reach_login.
  apply (@AuthSession.reach_mount nat
           {| AuthSession.user := @None nat; AuthSession.loading := true;
              AuthSession.stored_access := Some (js "stale");
              AuthSession.stored_refresh := Some (js "stale") |});
    [reflexivity|].
  split; discriminate.
Defined.

(** ** Editing an entry *)

Section EntryEditing.

Import Vault.
Open Scope string_scope.




End EntryEditing.

(** ** Labels off the prototype *)

Section LabelsTotal.

Import Helpers.
Open Scope string_scope.

(** X16. [getStrengthLabel] returns the display label for each of the five
    tiers and ['Unknown'] for every key that is neither a tier nor the
    name of a member inherited from [Object.prototype], the keys
    ["undefined"] and ["null"] of a missing strength included; its result
    is never falsy. *)
Theorem getStrengthLabel_off_prototype (key : string) :
  (In key (map fst labels) ->
   exists l, own labels key = Some (VString l) /\
             getStrengthLabel key = VString l /\ l <> js "Unknown") /\
  (~ In key (map fst labels) -> ~ In key (map fst object_prototype) ->
   getStrengthLabel key = VString (js "Unknown")) /\
  getStrengthLabel "undefined" = VString (js "Unknown") /\
  getStrengthLabel "null" = VString (js "Unknown") /\
  truthy (getStrengthLabel key) = true.
Proof.
  split; [|split; [|split; [|split]]].
  - intro H. unfold labels, map, fst, In in H.
    repeat (destruct H as [<-|H];
            [eexists; split; [reflexivity|split; [reflexivity|discriminate]]|]).
    contradiction.
  - apply getStrengthLabel_unknown.
  - reflexivity.
  - reflexivity.
  - unfold getStrengthLabel, or_else.
    destruct (truthy (get labels key)) eqn:E; [exact E | reflexivity].
Qed.

Lemma getStrengthLabel_off_prototype_witness :
  getStrengthLabel "excellent" = VString (js "Unknown").
Proof.
  apply (proj1 (proj2 (getStrengthLabel_off_prototype "excellent"))).
  - vm_compute. intuition discriminate.
  - vm_compute. intuition discriminate.
Defined.

End LabelsTotal.


(** ** What leaves the breach page *)

Section ClearPassword.

Import BreachChecker.
Open Scope string_scope.

Lemma ascii_list_eqb_eq (a b : list ascii) :
  BreachOracle.ascii_list_eqb a b = true <-> a = b.
Proof.
  unfold BreachOracle.ascii_list_eqb.
  destruct (list_eq_dec ascii_dec a b); split; congruence.
Qed.

(** The local comparison of the modelled oracle: the count of the first
    record with the suffix, not found when no record has it. *)
Lemma lookup_decides (sfx : list ascii) (records : list (list ascii * N)) :
  (forall n, BreachOracle.lookup sfx records = BreachOracle.Found n <->
     exists before after,
       records = (before ++ (sfx, n) :: after)%list /\
       Forall (fun r => fst r <> sfx) before) /\
  (BreachOracle.lookup sfx records = BreachOracle.NotFound <->
     Forall (fun r => fst r <> sfx) records).
Proof.
  unfold BreachOracle.lookup.
  induction records as [|[s n] rest [IHf IHn]]; cbn [find fst].
  - split.
    + intro n. split; [discriminate|].
      intros [[|x b] [a [E _]]]; discriminate E.
    + split; [constructor | reflexivity].
  - destruct (BreachOracle.ascii_list_eqb s sfx) eqn:E.
    + apply ascii_list_eqb_eq in E. subst s. split.
      * intro m. split.
        -- intro H. injection H as <-. exists [], rest. now split.
        -- intros [[|[x k] b] [a [Eq Hb]]]; cbn in Eq.
           ++ now injection Eq as <- <-.
           ++ injection Eq as <- <- _. inversion Hb; subst. cbn in *.
              congruence.
      * split; [discriminate|]. inversion 1; subst. cbn in *. congruence.
    + assert (Hne : s <> sfx).
      { intro Hs. apply ascii_list_eqb_eq in Hs. congruence. }
      split.
      * intro m. rewrite IHf. split.
        -- intros [b [a [-> Hb]]]. exists ((s, n) :: b), a.
           split; [reflexivity | now constructor].
        -- intros [[|[x k] b] [a [Eq Hb]]]; cbn in Eq.
           ++ injection Eq as -> _. congruence.
           ++ injection Eq as <- <- ->. inversion Hb; subst.
              exists b, a. now split.
      * rewrite IHn. split; [now constructor | now inversion 1].
Qed.


End ClearPassword.

(** ** A short code at login *)

Section ShortLoginCode.

Import Login LoginFlow ShortCode.
Open Scope string_scope.

(** C6, at the input where the code leaves it. After the back end has
    asked for the second factor and the user has typed [12a3], the code
    field holds the three digits [123] and [handleSubmit] sends them as
    [totp_code] without a check of their number, whatever the back end
    then answers; with the same input [verifyAndEnable] of the setup
    component sends nothing. *)
Theorem login_submits_short_totp_code :
  reachable typed /\
  totpCode typed = js "123" /\
  List.length (totpCode typed) <> 6 /\
  (forall login,
     requests (snd (handleSubmit login typed))
     = [("/auth/login",
         [("email", JStr (js "ada@mail.org")); ("password", JStr (js "pw"));
          ("totp_code", JStr (js "123"))])]) /\
  (forall (A : Type) (api : oracle A),
     TwoFactorSetup.verifyCode
       (TwoFactorSetup.onChangeCode (js "12a3") TwoFactorSetup.initial)
     = js "123" /\
     requests
       (snd (TwoFactorSetup.verifyAndEnable api
               (TwoFactorSetup.onChangeCode (js "12a3")
                  TwoFactorSetup.initial))) = []).
Proof.
  split; [|split; [|split; [|split]]].
  - apply reach_totp; [|reflexivity].
    apply reach_submit. do 2 apply reach_change. apply reach_initial.
  - reflexivity.
  - vm_compute. lia.
  - intro login. unfold handleSubmit.
    change (handleSubmit_request typed)
      with ("/auth/login",
            [("email", JStr (js "ada@mail.org")); ("password", JStr (js "pw"));
             ("totp_code", JStr (js "123"))]).
    cbv beta iota.
    match goal with
    | |- context [login ?d] => destruct (login d) as [|[|]]
    end; reflexivity.
  - intros A api. split; reflexivity.
Qed.

End ShortLoginCode.
